(** * tcconfig: reconstruction of the active shaping rules

    A shallow embedding of [tcconfig/parser/shaping_rule.py]
    (class [TcShapingRuleParser]) and the properties of its key
    resolution and parameter join.

    Python dictionaries are finite maps from strings to dynamically typed
    scalars; the parsed records are objects of a store, so that a deep copy
    and a deletion on the copy are distinguishable from a deletion on the
    record itself. *)

From stdpp Require Import base strings list gmap pretty.

Open Scope Z_scope.

(** ** Python values and exceptions *)

(** The scalars a parsed record holds: [None], an integer or a text. *)
Inductive pyval :=
  | PyNone
  | PyInt (z : Z)
  | PyStr (s : string).

#[global] Instance pyval_eq_dec : EqDecision pyval.
Proof. solve_decision. Defined.

(** A parsed record ([qdisc_param], [class_param], [filter_param]) and the
    accumulator [shaping_rule] are [dict]s. *)
Abbreviation dict := (gmap string pyval).

(** [d.get(k)]: [None] for a missing key. *)
Definition py_get (d : dict) (k : string) : pyval := default PyNone (d !! k).

(** Modelled from the spec: the class of the entries that
    [IptablesMangleController.parse] yields ([_iptables.py]) is not among the
    sources. A mangle rule associates a mark with an optional source
    network, a destination network and a protocol; key resolution reads the
    attributes [mark_id], [source], [destination] and [protocol]. *)
Record MangleRule := {
  mark_id : Z;
  source : option string;
  destination : string;
  protocol : string;
}.

Inductive exn :=
  | TypeError (v : pyval)                 (* Integer(v).validate() *)
  | ValueError (msg : string)             (* a format code applied to the wrong type *)
  | MangleMarkNotFound (mangle : MangleRule)
      (* ValueError("mangle mark not found: {}".format(mangle)) *)
  | UnboundLocalError (name : string)     (* a local read before assignment *)
  | KeyError (key : string)               (* del d[key] on a missing key *)
  | QueryError (msg : string)             (* a failed external query or parse *)
  | InvalidReference (l : nat).           (* a location outside the store *)

Inductive result (A : Type) :=
  | Ok (a : A)
  | Raise (e : exn).
Arguments Ok {A} a.
Arguments Raise {A} e.

#[global] Instance result_ret : MRet result := λ A a, Ok a.
#[global] Instance result_bind : MBind result := λ A B f r,
  match r with
  | Ok a => f a
  | Raise e => Raise e
  end.

(** ** Text helpers *)

(** [str.isspace] on one character (ASCII range). *)
Definition py_isspace (c : Ascii.ascii) : bool :=
  let n := Ascii.nat_of_ascii c in
  ((9 <=? n)%nat && (n <=? 13)%nat) || ((28 <=? n)%nat && (n <=? 32)%nat).

(** [len(s.strip()) == 0]: nothing but white space. *)
Fixpoint is_blank (s : string) : bool :=
  match s with
  | EmptyString => true
  | String c s' => py_isspace c && is_blank s'
  end.

(** [typepy.is_null_string] and [typepy.is_not_null_string]. *)
Definition is_null_string (v : pyval) : bool :=
  match v with
  | PyNone => true
  | PyStr s => is_blank s
  | PyInt _ => false
  end.

Definition is_not_null_string (v : pyval) : bool :=
  match v with
  | PyStr s => negb (is_blank s)
  | _ => false
  end.

(** [sep.join(l)]. *)
Fixpoint py_join (sep : string) (l : list string) : string :=
  match l with
  | [] => ""
  | x :: rest =>
      match rest with
      | [] => x
      | _ :: _ => x +:+ sep +:+ py_join sep rest
      end
  end.

(** The format codes [{:s}] and [{:d}]. *)
Definition format_s (v : pyval) : result string :=
  match v with
  | PyStr s => Ok s
  | _ => Raise (ValueError "Unknown format code 's'")
  end.

Definition format_d (v : pyval) : result string :=
  match v with
  | PyInt z => Ok (pretty z)
  | _ => Raise (ValueError "Unknown format code 'd'")
  end.

(** ** Constants of the tc vocabulary *)

Module Tc.
(** The names [Tc.Param.*] under which the parsers store the fields of a
    record. Their values are declared in [_const.py]; the development is
    parametric in them. *)
Class Param := {
  HANDLE : string;
  PARENT : string;
  CLASS_ID : string;
  FLOW_ID : string;
  SRC_NETWORK : string;
  DST_NETWORK : string;
  SRC_PORT : string;
  DST_PORT : string;
  PROTOCOL : string;
}.
End Tc.

(** Modelled from the spec: the two directions [TrafficDirection.OUTGOING]
    and [TrafficDirection.INCOMING] of [_const.py], which is not among the
    sources. *)
Inductive TrafficDirection := OUTGOING | INCOMING.

#[global] Instance TrafficDirection_eq_dec : EqDecision TrafficDirection.
Proof. solve_decision. Defined.

#[global] Instance TrafficDirection_countable : Countable TrafficDirection.
Proof.
  refine (inj_countable' (λ d, match d with OUTGOING => false | INCOMING => true end)
                         (λ b : bool, if b then INCOMING else OUTGOING) _).
  by intros [].
Defined.

(** ** Key resolution: [__get_filter_key] *)

Section FilterKey.
Context {tc : Tc.Param}.

(** [self.__ip_version]. *)
Variable ip_version : Z.

(** [_common.is_anywhere_network(network, ip_version)]. *)
Variable is_anywhere_network : pyval → Z → bool.

(** The type test of [typepy]'s [Integer] on a text: the integer typepy
    converts the text to, or [None] where the text is no integer for it. *)
Variable int_of_str : string → option Z.

(** [int(text)]: the integer the text is a literal of, or [None] where
    [int] raises [ValueError]. The two need not agree: typepy may accept a
    text that is no literal for [int]. *)
Variable int_literal : string → option Z.

Definition Integer_convert (v : pyval) : option Z :=
  match v with
  | PyInt z => Some z
  | PyStr s => int_of_str s
  | PyNone => None
  end.

(** [Integer(v).is_type()]. *)
Definition Integer_is_type (v : pyval) : bool := bool_decide (is_Some (Integer_convert v)).

(** [Integer(v).validate()]: [TypeError] unless the type test holds. *)
Definition Integer_validate (v : pyval) : result unit :=
  if Integer_is_type v then Ok () else Raise (TypeError v).

(** [int(v)]. *)
Definition py_int (v : pyval) : result Z :=
  match v with
  | PyInt z => Ok z
  | PyStr s =>
      match int_literal s with
      | Some z => Ok z
      | None => Raise (ValueError "invalid literal for int() with base 10")
      end
  | PyNone => Raise (TypeError v)
  end.

(** Lines 80-82: the handle of the record, validated and converted. *)
Definition converted_handle (filter_param : dict) : result Z :=
  let handle := py_get filter_param Tc.HANDLE in
  Integer_validate handle;;
  py_int handle.

(** [name + "={:s}"] applied to a value. *)
Definition format_param_s (name : string) (v : pyval) : result string :=
  s ← format_s v; Ok (name +:+ "=" +:+ s).

Definition format_param_d (name : string) (v : pyval) : result string :=
  s ← format_d v; Ok (name +:+ "=" +:+ s).

(** The items appended for the mangle rule at which the loop breaks
    (lines 88-93): destination, then source if it is a non-null text,
    then protocol. *)
Definition mangle_key_items (mangle : MangleRule) : list string :=
  [Tc.DST_NETWORK +:+ "=" +:+ destination mangle]
  ++ match source mangle with
     | Some s => if is_not_null_string (PyStr s)
                 then [Tc.SRC_NETWORK +:+ "=" +:+ s] else []
     | None => []
     end
  ++ [Tc.PROTOCOL +:+ "=" +:+ protocol mangle].

(** The [for mangle in ...: ... break / else: raise] loop (lines 84-97).
    [bound] is the value the loop variable [mangle] holds so far: the
    [else] clause formats it, and it is unbound when the table is empty. *)
Fixpoint mangle_loop (handle : Z) (bound : option MangleRule)
    (table : list MangleRule) : result (list string) :=
  match table with
  | [] =>
      match bound with
      | Some mangle => Raise (MangleMarkNotFound mangle)
      | None => Raise (UnboundLocalError "mangle")
      end
  | mangle :: rest =>
      if bool_decide (mark_id mangle ≠ handle)
      then mangle_loop handle (Some mangle) rest
      else Ok (mangle_key_items mangle)
  end.

(** The direct branch (lines 99-120). *)
Definition direct_key_items (filter_param : dict) : result (list string) :=
  let src_network := py_get filter_param Tc.SRC_NETWORK in
  items1 ← (if is_not_null_string src_network
               && negb (is_anywhere_network src_network ip_version)
            then i ← format_param_s Tc.SRC_NETWORK src_network; Ok [i]
            else Ok []);
  let dst_network := py_get filter_param Tc.DST_NETWORK in
  items2 ← (if is_not_null_string dst_network
            then i ← format_param_s Tc.DST_NETWORK dst_network; Ok [i]
            else Ok []);
  let src_port := py_get filter_param Tc.SRC_PORT in
  items3 ← (if Integer_is_type src_port
            then i ← format_param_d Tc.SRC_PORT src_port; Ok [i]
            else Ok []);
  let dst_port := py_get filter_param Tc.DST_PORT in
  items4 ← (if Integer_is_type dst_port
            then i ← format_param_d Tc.DST_PORT dst_port; Ok [i]
            else Ok []);
  let protocol := py_get filter_param Tc.PROTOCOL in
  items5 ← (if is_not_null_string protocol
            then i ← format_param_s Tc.PROTOCOL protocol; Ok [i]
            else Ok []);
  Ok (items1 ++ items2 ++ items3 ++ items4 ++ items5).

(** The value of [key_item_list] at line 122. [mangle_table] is what
    [self.__iptables_ctrl.parse()] yields. *)
Definition key_item_list (mangle_table : list MangleRule) (filter_param : dict)
    : result (list string) :=
  if bool_decide (is_Some (filter_param !! Tc.HANDLE)) then
    handle ← converted_handle filter_param;
    mangle_loop handle None mangle_table
  else direct_key_items filter_param.

Definition get_filter_key (mangle_table : list MangleRule) (filter_param : dict)
    : result string :=
  items ← key_item_list mangle_table filter_param;
  Ok (py_join ", " items).

(** The order in which the direct branch appends the fields, and the
    order in which the loop over the mangle rules appends them. *)
Definition direct_order : list string :=
  [Tc.SRC_NETWORK; Tc.DST_NETWORK; Tc.SRC_PORT; Tc.DST_PORT; Tc.PROTOCOL].

Definition mangle_order : list string :=
  [Tc.DST_NETWORK; Tc.SRC_NETWORK; Tc.PROTOCOL].

(** The names a key is resolved from. *)
Definition key_attributes : list string := Tc.HANDLE :: direct_order.

(** A field that takes no part in a key read as "absent or any": a
    network that is no text, is blank, or is the any-address network of
    the IP version. *)
Definition absent_or_any (network : pyval) : Prop :=
  is_not_null_string network = false
  ∨ is_anywhere_network network ip_version = true.

(** The classification fields of a record are all absent or "any". *)
Definition unclassified (filter_param : dict) : Prop :=
  absent_or_any (py_get filter_param Tc.SRC_NETWORK)
  ∧ absent_or_any (py_get filter_param Tc.DST_NETWORK)
  ∧ Integer_is_type (py_get filter_param Tc.SRC_PORT) = false
  ∧ Integer_is_type (py_get filter_param Tc.DST_PORT) = false
  ∧ is_not_null_string (py_get filter_param Tc.PROTOCOL) = false.

(** None of the five conditions of the direct branch holds: the source
    network is absent or "any", and the destination network, the ports
    and the protocol are absent. *)
Definition no_key_field (filter_param : dict) : Prop :=
  absent_or_any (py_get filter_param Tc.SRC_NETWORK)
  ∧ is_not_null_string (py_get filter_param Tc.DST_NETWORK) = false
  ∧ Integer_is_type (py_get filter_param Tc.SRC_PORT) = false
  ∧ Integer_is_type (py_get filter_param Tc.DST_PORT) = false
  ∧ is_not_null_string (py_get filter_param Tc.PROTOCOL) = false.

End FilterKey.

(** ** The object store and the effects of the orchestrator *)

(** A parsed record is an object: a location of the heap. *)
Definition loc := nat.

(** Modelled from the spec: the three tc subcommands [Tc.Subcommand] of
    [_const.py], which is not among the sources; they also name the tables
    of the in-memory database. *)
Inductive Subcommand := QDISC | CLASS | FILTER.

(** [con] is the connection [self.__con] opened in [__init__]: the rows the
    parsers have inserted, each with its table and device. [heap] holds the
    dictionaries that are alive. *)
Record state := {
  con : list (Subcommand * pyval * dict);
  heap : list dict;
}.

(** State and exceptions: a computation returns the final state together
    with a value or the exception it raised. *)
Definition M (A : Type) : Type := state → state * result A.

#[global] Instance M_ret : MRet M := λ A a s, (s, Ok a).
#[global] Instance M_bind : MBind M := λ A B f m s,
  match m s with
  | (s', Ok a) => f a s'
  | (s', Raise e) => (s', Raise e)
  end.

Definition lift {A} (r : result A) : M A := λ s, (s, r).

(** Reading an object. A location outside the heap has no Python
    counterpart; it is reported as [InvalidReference]. *)
Definition load (l : loc) : M dict := λ s,
  match heap s !! l with
  | Some d => (s, Ok d)
  | None => (s, Raise (InvalidReference l))
  end.

Definition store (l : loc) (d : dict) : M unit := λ s,
  ({| con := con s; heap := <[l := d]> (heap s) |}, Ok ()).

Definition alloc (d : dict) : M loc := λ s,
  ({| con := con s; heap := heap s ++ [d] |}, Ok (length (heap s))).

(** [copy.deepcopy(d)]: the values are scalars, so the copy is a new
    dictionary with the same items. *)
Definition deepcopy (l : loc) : M loc := d ← load l; alloc d.

(** [d.get(k)] on an object. *)
Definition dict_get (l : loc) (k : string) : M pyval :=
  d ← load l; mret (py_get d k).

(** [del d[k]]. *)
Definition dict_del (l : loc) (k : string) : M unit :=
  d ← load l;
  if bool_decide (is_Some (d !! k)) then store l (delete k d)
  else lift (Raise (KeyError k)).

(** [try: body / except KeyError: pass]. *)
Definition except_KeyError_pass (body : M unit) : M unit := λ s,
  match body s with
  | (s', Raise (KeyError _)) => (s', Ok ())
  | r => r
  end.

(** [__strip_qdisc_param] (lines 193-207). *)
Section Strip.
Context {tc : Tc.Param}.

Definition strip_qdisc_param (qdisc_param : loc) : M loc :=
  work_qdisc_param ← deepcopy qdisc_param;
  except_KeyError_pass (dict_del work_qdisc_param Tc.PARENT);;
  except_KeyError_pass (dict_del work_qdisc_param Tc.HANDLE);;
  mret work_qdisc_param.
End Strip.

(** ** The orchestrator: [__get_shaping_rule] and [get_tc_parameter] *)

Section Orchestrator.
Context {tc : Tc.Param}.

Variable ip_version : Z.
Variable is_anywhere_network : pyval → Z → bool.
Variable int_of_str : string → option Z.
Variable int_literal : string → option Z.

(** What [self.__iptables_ctrl.parse()] yields. *)
Variable mangle_table : list MangleRule.

(** [_common.run_tc_show(subcommand, device)]: the text of the query, or
    the exception of a failed one. *)
Variable run_tc_show : Subcommand → pyval → result string.

(** The record grammar of each parser: the records of one text. *)
Variable qdisc_records class_records filter_records
  : pyval → string → result (list dict).

Definition con_insert (table : Subcommand) (device : pyval)
    (records : list dict) : M unit := λ s,
  ({| con := con s ++ ((λ r, (table, device, r)) <$> records);
      heap := heap s |}, Ok ()).

Fixpoint alloc_list (records : list dict) : M (list loc) :=
  match records with
  | [] => mret []
  | r :: rest => l ← alloc r; ls ← alloc_list rest; mret (l :: ls)
  end.

(** Modelled from the spec: the parsers [TcQdiscParser], [TcClassParser]
    and [TcFilterParser] ([_qdisc.py], [_class.py], [_filter.py]) are not
    among the sources. Following their contract, [parse(device, text)]
    turns the text of one query into the sequence of its records, which
    it also inserts into the store it was built on. *)
Definition parser_parse (table : Subcommand)
    (grammar : pyval → string → result (list dict))
    (device : pyval) (text : string) : M (list loc) :=
  records ← lift (grammar device text);
  con_insert table device records;;
  alloc_list records.

(** Lines 181-191. *)
Definition parse_tc_qdisc (device : pyval) : M (list loc) :=
  text ← lift (run_tc_show QDISC device);
  parser_parse QDISC qdisc_records device text.

Definition parse_tc_filter (device : pyval) : M (list loc) :=
  text ← lift (run_tc_show FILTER device);
  parser_parse FILTER filter_records device text.

Definition parse_tc_class (device : pyval) : M (list loc) :=
  text ← lift (run_tc_show CLASS device);
  parser_parse CLASS class_records device text.

(** Lines 145-154. [shaping_rule] is the accumulator of the current
    filter; it is local to one iteration of the filter loop. *)
Fixpoint qdisc_loop (filter_param : loc) (qdisc_param_list : list loc)
    (shaping_rule : dict) : M dict :=
  match qdisc_param_list with
  | [] => mret shaping_rule
  | qdisc_param :: rest =>
      parent ← dict_get qdisc_param Tc.PARENT;
      flow_id ← dict_get filter_param Tc.FLOW_ID;
      class_id ← dict_get filter_param Tc.CLASS_ID;
      if bool_decide (parent ∉ [flow_id; class_id])
      then qdisc_loop filter_param rest shaping_rule
      else
        work ← strip_qdisc_param qdisc_param;
        params ← load work;
        qdisc_loop filter_param rest (params ∪ shaping_rule)
  end.

(** Lines 156-167. *)
Fixpoint class_loop (filter_param : loc) (class_param_list : list loc)
    (shaping_rule : dict) : M dict :=
  match class_param_list with
  | [] => mret shaping_rule
  | class_param :: rest =>
      cid ← dict_get class_param Tc.CLASS_ID;
      flow_id ← dict_get filter_param Tc.FLOW_ID;
      class_id ← dict_get filter_param Tc.CLASS_ID;
      if bool_decide (cid ∉ [flow_id; class_id])
      then class_loop filter_param rest shaping_rule
      else
        work_class_param ← deepcopy class_param;
        dict_del work_class_param Tc.CLASS_ID;;
        params ← load work_class_param;
        class_loop filter_param rest (params ∪ shaping_rule)
  end.

(** Lines 134-177. The calls of [self.__logger.debug] format the records
    they are given and have no other effect; they are left out. *)
Fixpoint filter_loop (filter_param_list qdisc_param_list class_param_list : list loc)
    (shaping_rule_mapping : gmap string dict) : M (gmap string dict) :=
  match filter_param_list with
  | [] => mret shaping_rule_mapping
  | filter_param :: rest =>
      fp ← load filter_param;
      filter_key ← lift (get_filter_key ip_version is_anywhere_network
                           int_of_str int_literal mangle_table fp);
      if is_null_string (PyStr filter_key)
      then filter_loop rest qdisc_param_list class_param_list shaping_rule_mapping
      else
        shaping_rule ← qdisc_loop filter_param qdisc_param_list ∅;
        shaping_rule ← class_loop filter_param class_param_list shaping_rule;
        if bool_decide (shaping_rule = ∅)
        then filter_loop rest qdisc_param_list class_param_list shaping_rule_mapping
        else filter_loop rest qdisc_param_list class_param_list
               (<[filter_key := shaping_rule]> shaping_rule_mapping)
  end.

(** Lines 124-179. *)
Definition get_shaping_rule (device : pyval) : M (gmap string dict) :=
  if is_null_string device then mret ∅
  else
    class_param_list ← parse_tc_class device;
    filter_param_list ← parse_tc_filter device;
    qdisc_param_list ← parse_tc_qdisc device;
    filter_loop filter_param_list qdisc_param_list class_param_list ∅.

(** [self.device] and [self.__ifb_device], the latter as
    [parse_incoming_device] returned it in [__init__]. *)
Variable device : string.
Variable ifb_device : pyval.

(** Lines 47-55. *)
Definition get_tc_parameter
    : M (gmap string (gmap TrafficDirection (gmap string dict))) :=
  outgoing ← get_shaping_rule (PyStr device);
  incoming ← get_shaping_rule ifb_device;
  mret {[ device := {[ OUTGOING := outgoing; INCOMING := incoming ]} ]}.

End Orchestrator.

(** ** The join on the values of the records

    What the loops of [__get_shaping_rule] compute, as functions of the
    dictionaries the locations hold. The section [Simulation] below proves
    that running the loops on a store yields these values. *)

Section JoinView.
Context {tc : Tc.Param}.

Variable ip_version : Z.
Variable is_anywhere_network : pyval → Z → bool.
Variable int_of_str : string → option Z.
Variable int_literal : string → option Z.
Variable mangle_table : list MangleRule.

(** The pair [(filter_param.get(FLOW_ID), filter_param.get(CLASS_ID))]. *)
Definition join_ids (filter_param : dict) : list pyval :=
  [py_get filter_param Tc.FLOW_ID; py_get filter_param Tc.CLASS_ID].

(** The dictionary [__strip_qdisc_param] returns. *)
Definition strip_qdisc (qdisc_param : dict) : dict :=
  delete Tc.HANDLE (delete Tc.PARENT qdisc_param).

Fixpoint qdisc_params (filter_param : dict) (qdisc_param_list : list dict)
    (shaping_rule : dict) : dict :=
  match qdisc_param_list with
  | [] => shaping_rule
  | q :: rest =>
      if bool_decide (py_get q Tc.PARENT ∉ join_ids filter_param)
      then qdisc_params filter_param rest shaping_rule
      else qdisc_params filter_param rest (strip_qdisc q ∪ shaping_rule)
  end.

Fixpoint class_params (filter_param : dict) (class_param_list : list dict)
    (shaping_rule : dict) : result dict :=
  match class_param_list with
  | [] => Ok shaping_rule
  | c :: rest =>
      if bool_decide (py_get c Tc.CLASS_ID ∉ join_ids filter_param)
      then class_params filter_param rest shaping_rule
      else if bool_decide (is_Some (c !! Tc.CLASS_ID))
      then class_params filter_param rest (delete Tc.CLASS_ID c ∪ shaping_rule)
      else Raise (KeyError Tc.CLASS_ID)
  end.

(** The accumulator of one filter after both scans. *)
Definition merged_params (filter_param : dict) (qs cs : list dict) : result dict :=
  class_params filter_param cs (qdisc_params filter_param qs ∅).

Fixpoint shaping_rules (fs qs cs : list dict) (mapping : gmap string dict)
    : result (gmap string dict) :=
  match fs with
  | [] => Ok mapping
  | f :: rest =>
      filter_key ← get_filter_key ip_version is_anywhere_network int_of_str int_literal
                     mangle_table f;
      if is_null_string (PyStr filter_key) then shaping_rules rest qs cs mapping
      else
        shaping_rule ← merged_params f qs cs;
        if bool_decide (shaping_rule = ∅) then shaping_rules rest qs cs mapping
        else shaping_rules rest qs cs (<[filter_key := shaping_rule]> mapping)
  end.

(** Every filter record gets a key: none carries a handle that is no
    integer or that the mangle table does not resolve. *)
Definition keys_resolve (fs : list dict) : Prop :=
  Forall (λ f, ∃ key, get_filter_key ip_version is_anywhere_network int_of_str int_literal
                        mangle_table f = Ok key) fs.

(** Every class record carries its class id. *)
Definition carry_class_id (cs : list dict) : Prop :=
  Forall (λ c, is_Some (c !! Tc.CLASS_ID)) cs.

Variable run_tc_show : Subcommand → pyval → result string.
Variable qdisc_records class_records filter_records
  : pyval → string → result (list dict).

(** The records the three queries of one device parse into, in the order
    the orchestrator issues them: class, filter, qdisc. *)
Definition parsed_records (device : pyval)
    : result (list dict * list dict * list dict) :=
  class_text ← run_tc_show CLASS device;
  cs ← class_records device class_text;
  filter_text ← run_tc_show FILTER device;
  fs ← filter_records device filter_text;
  qdisc_text ← run_tc_show QDISC device;
  qs ← qdisc_records device qdisc_text;
  Ok (cs, fs, qs).

Definition shaping_rule_of (device : pyval) : result (gmap string dict) :=
  if is_null_string device then Ok ∅
  else
    '(cs, fs, qs) ← parsed_records device;
    shaping_rules fs qs cs ∅.

(** *** The merge of a filter, an absent field read as [None]

    The matching test compares what [get] returns, so that a record without
    a parent (or class id) matches a filter without flow id or class id. *)

(** Merging a sequence of mappings into one: a later mapping overwrites an
    earlier one where their keys collide. *)
Definition dict_updates (ds : list dict) : dict :=
  foldl (λ acc d, d ∪ acc) ∅ ds.

(** The parameters of every qdisc record whose parent, read with [get],
    equals the flow id or the class id of the filter read with [get],
    without [parent] and [handle]. *)
Definition spec_qdisc_part (filter_param : dict) (qs : list dict) : dict :=
  dict_updates
    ((λ q, delete Tc.HANDLE (delete Tc.PARENT q))
       <$> filter (λ q, py_get q Tc.PARENT ∈ join_ids filter_param) qs).

(** The parameters of every class record whose class id, read with [get],
    equals one of the two, without [classid]. *)
Definition spec_class_part (filter_param : dict) (cs : list dict) : dict :=
  dict_updates
    (delete Tc.CLASS_ID
       <$> filter (λ c, py_get c Tc.CLASS_ID ∈ join_ids filter_param) cs).

(** The qdisc part updated by the class part: the class value wins. *)
Definition spec_merged_params (filter_param : dict) (qs cs : list dict) : dict :=
  spec_class_part filter_param cs ∪ spec_qdisc_part filter_param qs.

(** *** The merge of a filter in the words of the specification

    Only an identifier that is there can be equal to another: the flow or
    class identifiers of a filter are those of the two it carries. *)
Definition present_ids (filter_param : dict) : list pyval :=
  filter (λ v, v ≠ PyNone) (join_ids filter_param).

(** The parameters of every qdisc record whose parent equals the flow or
    class identifier of the filter, without [parent] and [handle]. *)
Definition stated_qdisc_part (filter_param : dict) (qs : list dict) : dict :=
  dict_updates
    ((λ q, delete Tc.HANDLE (delete Tc.PARENT q))
       <$> filter (λ q, py_get q Tc.PARENT ∈ present_ids filter_param) qs).

(** The parameters of every class record whose class id equals that
    identifier, without [classid]. *)
Definition stated_class_part (filter_param : dict) (cs : list dict) : dict :=
  dict_updates
    (delete Tc.CLASS_ID
       <$> filter (λ c, py_get c Tc.CLASS_ID ∈ present_ids filter_param) cs).

(** The qdisc part updated by the class part. *)
Definition stated_merged_params (filter_param : dict) (qs cs : list dict) : dict :=
  stated_class_part filter_param cs ∪ stated_qdisc_part filter_param qs.

End JoinView.

(** The locations [ls] of the heap [h] hold the dictionaries [ds]. *)
Definition objs (h : list dict) (ls : list loc) (ds : list dict) : Prop :=
  Forall2 (λ l d, h !! l = Some d) ls ds.

(** ** The order of the fields of a key *)

(** The text of one field of a key. *)
Definition render_field (f : string * string) : string := f.1 +:+ "=" +:+ f.2.

(** [items] are the texts of fields whose names follow one another as in
    [order], some names possibly missing. *)
Definition fields_in_order (order : list string) (items : list string) : Prop :=
  ∃ fields : list (string * string),
    fields.*1 `sublist_of` order ∧ items = render_field <$> fields.

(** ** A sample configuration

    One choice of the constants and of the collaborators, and a few records,
    on which the statements below are evaluated. *)

Module Sample.

Definition names : Tc.Param := {|
  Tc.HANDLE := "handle";
  Tc.PARENT := "parent";
  Tc.CLASS_ID := "classid";
  Tc.FLOW_ID := "flowid";
  Tc.SRC_NETWORK := "src-network";
  Tc.DST_NETWORK := "dst-network";
  Tc.SRC_PORT := "src-port";
  Tc.DST_PORT := "dst-port";
  Tc.PROTOCOL := "protocol";
|}.

(** The any-address network of IPv4 and of IPv6. *)
Definition anywhere (network : pyval) (ip_version : Z) : bool :=
  bool_decide (network = PyStr (if bool_decide (ip_version = 6)
                                then "::/0" else "0.0.0.0/0")).

Definition text_int (s : string) : option Z :=
  if bool_decide (s = "100") then Some 100 else None.

Definition int_literal (s : string) : option Z :=
  if bool_decide (s = "100") then Some 100 else None.

(** Mangle rules: two for the mark 100, one for the mark 101. *)
Definition rule_a : MangleRule :=
  {| mark_id := 100; source := Some "10.0.0.0/8";
     destination := "192.0.2.0/24"; protocol := "all" |}.
Definition rule_b : MangleRule :=
  {| mark_id := 100; source := None;
     destination := "198.51.100.0/24"; protocol := "tcp" |}.
Definition rule_c : MangleRule :=
  {| mark_id := 101; source := None;
     destination := "203.0.113.0/24"; protocol := "udp" |}.

(** Filter records. *)
Definition marked : dict :=
  {[ "handle" := PyInt 100; "flowid" := PyStr "1:10" ]}.
Definition direct : dict :=
  {[ "flowid" := PyStr "1:10"; "dst-network" := PyStr "192.0.2.0/24";
     "protocol" := PyStr "ip" ]}.
Definition direct_again : dict :=
  {[ "flowid" := PyStr "1:20"; "dst-network" := PyStr "192.0.2.0/24";
     "protocol" := PyStr "ip" ]}.
Definition any_source : dict :=
  {[ "flowid" := PyStr "1:10"; "src-network" := PyStr "0.0.0.0/0" ]}.
Definition any_destination : dict :=
  {[ "flowid" := PyStr "1:10"; "dst-network" := PyStr "0.0.0.0/0" ]}.
Definition direct_other : dict :=
  {[ "flowid" := PyStr "1:10"; "dst-network" := PyStr "198.51.100.0/24";
     "protocol" := PyStr "ip" ]}.
Definition full : dict :=
  {[ "flowid" := PyStr "1:10"; "src-network" := PyStr "10.0.0.0/8";
     "dst-network" := PyStr "192.0.2.0/24"; "src-port" := PyInt 1234;
     "dst-port" := PyInt 80; "protocol" := PyStr "ip" ]}.

(** Qdisc records. *)
Definition netem : dict :=
  {[ "parent" := PyStr "1:10"; "handle" := PyStr "10:";
     "delay" := PyStr "100ms"; "limit" := PyStr "10" ]}.
Definition netem20 : dict :=
  {[ "parent" := PyStr "1:20"; "handle" := PyStr "20:";
     "delay" := PyStr "5ms" ]}.

(** Class records; the second one also carries the parent of the class. *)
Definition htb : dict :=
  {[ "classid" := PyStr "1:10"; "rate" := PyStr "1Mbit";
     "limit" := PyStr "20" ]}.
Definition htb_parent : dict :=
  {[ "classid" := PyStr "1:10"; "parent" := PyStr "1:";
     "rate" := PyStr "1Mbit" ]}.

(** Queries that succeed, and parsers that yield given records. *)
Definition show (subcommand : Subcommand) (device : pyval) : result string :=
  Ok "".
Definition records (rs : list dict) (device : pyval) (text : string)
    : result (list dict) := Ok rs.

Definition eth0 : pyval := PyStr "eth0".
Definition empty : state := {| con := []; heap := [] |}.

(** The reconstruction of one direction on given records. *)
Definition reconstruct (table : list MangleRule) (qs cs fs : list dict)
    : M (gmap string dict) :=
  get_shaping_rule (tc := names) 4 anywhere text_int int_literal table show
    (records qs) (records cs) (records fs) eth0.

Definition key_of (table : list MangleRule) (f : dict) : result string :=
  get_filter_key (tc := names) 4 anywhere text_int int_literal table f.

End Sample.

(** ** The filter queries: [get_outgoing_tc_filter], [get_incoming_tc_filter] *)

(** The truth value of an object, as [not x] tests it: [None], zero and the
    empty text are false. *)
Definition py_truthy (v : pyval) : bool :=
  match v with
  | PyNone => false
  | PyInt z => negb (z =? 0)
  | PyStr s => negb (bool_decide (s = ""))
  end.

Section FilterQueries.

Variable run_tc_show : Subcommand → pyval → result string.
Variable filter_records : pyval → string → result (list dict).
Variable device : string.
Variable ifb_device : pyval.

(** Lines 57-58. *)
Definition get_outgoing_tc_filter : M (list loc) :=
  parse_tc_filter run_tc_show filter_records (PyStr device).

(** Lines 60-64. *)
Definition get_incoming_tc_filter : M (list loc) :=
  if negb (py_truthy ifb_device) then mret []
  else parse_tc_filter run_tc_show filter_records ifb_device.

End FilterQueries.

(** ** The logging switches: [_logger.py] *)

Module Logger.

(** The two libraries whose logging [_logger.py] switches together with
    its own. *)
Inductive Library := simplesqlite | subprocrunner.

(** A call forwarded to a library: [lib.set_logger(is_enable)] or
    [lib.set_log_level(log_level)]. *)
Inductive ext_call :=
  | SetLogger (lib : Library) (is_enable : bool)
  | SetLogLevel (lib : Library) (log_level : Z).

(** The module-level [logger]: its attributes [disabled] and [level], and
    the calls forwarded to the libraries so far. *)
Record logging := {
  disabled : bool;
  level : Z;
  calls : list ext_call;
}.

(** [set_logger] (lines 18-29). [logger.enable()] and [logger.disable()]
    clear and set the attribute [disabled]. *)
Definition set_logger (is_enable : bool) (st : logging) : logging :=
  if bool_decide (is_enable ≠ disabled st) then st
  else
    {| disabled := negb is_enable;
       level := level st;
       calls := calls st ++ [SetLogger simplesqlite is_enable;
                             SetLogger subprocrunner is_enable] |}.

(** What a call of [set_log_level] ends in: the new state, or the
    [LookupError] of [logbook.get_level_name]. *)
Inductive outcome :=
  | Done (st : logging)
  | LookupError (log_level : Z).

Section LogLevel.

(** [logbook.get_level_name]: the name of a level, for the levels logbook
    knows. *)
Variable get_level_name : Z → option string.

(** [logbook.NOTSET]. *)
Variable NOTSET : Z.

(** [set_log_level] (lines 32-57). *)
Definition set_log_level (log_level : Z) (st : logging) : outcome :=
  match get_level_name log_level with
  | None => LookupError log_level
  | Some _ =>
      if bool_decide (log_level = level st) then Done st
      else
        let st1 := if bool_decide (log_level = NOTSET)
                   then set_logger false st
                   else set_logger true st in
        Done {| disabled := disabled st1;
                level := log_level;
                calls := calls st1 ++ [SetLogLevel simplesqlite log_level;
                                       SetLogLevel subprocrunner log_level] |}
  end.

(** The logger is disabled exactly when its level is [NOTSET]. *)
Definition consistent (st : logging) : Prop :=
  disabled st = bool_decide (level st = NOTSET).

End LogLevel.

(** The levels of logbook, for the examples. *)
Definition logbook_level_name (log_level : Z) : option string :=
  if bool_decide (log_level = 15) then Some "CRITICAL"
  else if bool_decide (log_level = 14) then Some "ERROR"
  else if bool_decide (log_level = 13) then Some "WARNING"
  else if bool_decide (log_level = 12) then Some "NOTICE"
  else if bool_decide (log_level = 11) then Some "INFO"
  else if bool_decide (log_level = 10) then Some "DEBUG"
  else if bool_decide (log_level = 9) then Some "TRACE"
  else if bool_decide (log_level = 0) then Some "NOTSET"
  else None.

(** The logger as the module leaves it when it is loaded (lines 14-15):
    disabled, at the level it was created with. *)
Definition loaded (level0 : Z) : logging :=
  {| disabled := true; level := level0; calls := [] |}.

End Logger.

(** ** Records and collaborators for the edge cases *)

Module Edge.

(** A filter record with a handle that also holds direct fields. *)
Definition marked_with_fields : dict :=
  {[ "handle" := PyInt 100; "flowid" := PyStr "1:30";
     "dst-network" := PyStr "10.1.0.0/16"; "protocol" := PyStr "tcp" ]}.

(** A filter record whose destination port is a text. *)
Definition text_port : dict :=
  {[ "flowid" := PyStr "1:10"; "dst-network" := PyStr "192.0.2.0/24";
     "dst-port" := PyStr "100" ]}.

(** A qdisc record without a parent, a second qdisc record under 1:10, and
    a class record without a class id. *)
Definition rootless : dict :=
  {[ "handle" := PyStr "1:"; "rate" := PyStr "1Mbit" ]}.
Definition netem_slow : dict :=
  {[ "parent" := PyStr "1:10"; "handle" := PyStr "11:";
     "delay" := PyStr "7ms" ]}.
Definition anonymous_class : dict :=
  {[ "rate" := PyStr "2Mbit" ]}.

(** A type test that also takes the text of a float without a fraction,
    which is no literal for [int]; a record with such a handle, and a rule
    for the mark 1. *)
Definition lenient_int (s : string) : option Z :=
  if bool_decide (s = "1.0") then Some 1 else Sample.text_int s.
Definition float_handle : dict :=
  {[ "handle" := PyStr "1.0"; "flowid" := PyStr "1:10" ]}.
Definition rule_one : MangleRule :=
  {| mark_id := 1; source := None;
     destination := "192.0.2.0/24"; protocol := "all" |}.

(** A class query that fails. *)
Definition show_without_class (subcommand : Subcommand) (device : pyval)
    : result string :=
  match subcommand with
  | CLASS => Raise (QueryError "Cannot find device")
  | _ => Ok ""
  end.

End Edge.

(** * Properties *)

(** ** Texts *)

Lemma is_blank_app (a b : string) : is_blank (a +:+ b) = is_blank a && is_blank b.
Proof.
  induction a as [|c a IH]; simpl; [done|].
  by rewrite IH, andb_assoc.
Qed.

Lemma render_field_not_blank (f : string * string) : is_blank (render_field f) = false.
Proof.
  unfold render_field. rewrite !is_blank_app. simpl.
  by rewrite andb_false_r.
Qed.

Lemma py_join_blank (sep : string) (items : list string) :
  Forall (λ i, is_blank i = false) items →
  is_blank (py_join sep items) = true → items = [].
Proof.
  intros Hall Hblank. destruct Hall as [|x rest Hx Hrest]; [done|].
  exfalso. simpl in Hblank. destruct rest.
  - congruence.
  - rewrite is_blank_app, Hx in Hblank. discriminate.
Qed.

Lemma py_join_fields_null (fields : list (string * string)) :
  is_null_string (PyStr (py_join ", " (render_field <$> fields)))
  = bool_decide (py_join ", " (render_field <$> fields) = "").
Proof.
  simpl. destruct fields as [|f fields].
  - done.
  - assert (Hnb : is_blank (py_join ", " (render_field <$> f :: fields)) = false).
    { destruct (is_blank _) eqn:E; [|done].
      apply py_join_blank in E; [done|].
      apply Forall_fmap, Forall_true. intros x. apply render_field_not_blank. }
    rewrite Hnb. symmetry. apply bool_decide_eq_false. intros Heq.
    rewrite Heq in Hnb. discriminate.
Qed.

(** ** Key resolution *)

Section KeyProperties.
Context {tc : Tc.Param}.

Variable ip_version : Z.
Variable is_anywhere_network : pyval → Z → bool.
Variable int_of_str : string → option Z.
Variable int_literal : string → option Z.

Local Abbreviation key_items := (key_item_list ip_version is_anywhere_network int_of_str int_literal).
Local Abbreviation filter_key := (get_filter_key ip_version is_anywhere_network int_of_str int_literal).
Local Abbreviation direct_items := (direct_key_items ip_version is_anywhere_network int_of_str).

Lemma item_s_fields (c : bool) (name : string) (v : pyval) (items : list string) :
  (if c then i ← format_param_s name v; Ok [i] else Ok []) = Ok items →
  ∃ fields : list (string * string),
    items = render_field <$> fields ∧ fields.*1 `sublist_of` [name].
Proof.
  destruct c.
  - destruct v as [|z|s]; simpl; try discriminate.
    intros [= <-]. exists [(name, s)]. done.
  - intros [= <-]. exists []. split; [done|]. apply sublist_nil_l.
Qed.

Lemma item_d_fields (c : bool) (name : string) (v : pyval) (items : list string) :
  (if c then i ← format_param_d name v; Ok [i] else Ok []) = Ok items →
  ∃ fields : list (string * string),
    items = render_field <$> fields ∧ fields.*1 `sublist_of` [name].
Proof.
  destruct c.
  - destruct v as [|z|s]; simpl; try discriminate.
    intros [= <-]. exists [(name, pretty z)]. done.
  - intros [= <-]. exists []. split; [done|]. apply sublist_nil_l.
Qed.

Lemma direct_key_items_fields (filter_param : dict) (items : list string) :
  direct_items filter_param = Ok items →
  ∃ fields : list (string * string),
    items = render_field <$> fields ∧ fields.*1 `sublist_of` direct_order.
Proof.
  unfold direct_key_items. intros Hrun.
  repeat match type of Hrun with
  | mbind _ ?block = Ok _ =>
      let E := fresh "E" in
      destruct block eqn:E; simpl in Hrun; [|discriminate]
  end.
  injection Hrun as <-.
  apply item_s_fields in E as (f1 & -> & S1).
  apply item_s_fields in E0 as (f2 & -> & S2).
  apply item_d_fields in E1 as (f3 & -> & S3).
  apply item_d_fields in E2 as (f4 & -> & S4).
  apply item_s_fields in E3 as (f5 & -> & S5).
  exists (f1 ++ f2 ++ f3 ++ f4 ++ f5). split.
  - by rewrite !fmap_app.
  - rewrite !fmap_app.
    change direct_order with ([Tc.SRC_NETWORK] ++ [Tc.DST_NETWORK]
      ++ [Tc.SRC_PORT] ++ [Tc.DST_PORT] ++ [Tc.PROTOCOL]).
    by repeat apply sublist_app.
Qed.

Lemma mangle_key_items_fields (mangle : MangleRule) :
  ∃ fields : list (string * string),
    mangle_key_items mangle = render_field <$> fields
    ∧ fields.*1 `sublist_of` mangle_order.
Proof.
  unfold mangle_key_items, mangle_order.
  destruct (source mangle) as [s|]; [destruct (is_not_null_string _)|].
  - exists [(Tc.DST_NETWORK, destination mangle); (Tc.SRC_NETWORK, s);
            (Tc.PROTOCOL, protocol mangle)]. done.
  - exists [(Tc.DST_NETWORK, destination mangle); (Tc.PROTOCOL, protocol mangle)].
    split; [done|]. simpl. by repeat constructor.
  - exists [(Tc.DST_NETWORK, destination mangle); (Tc.PROTOCOL, protocol mangle)].
    split; [done|]. simpl. by repeat constructor.
Qed.

(** The loop ends in an exception or at the items of a rule of the table
    whose mark is the handle. *)
Lemma mangle_loop_ok (handle : Z) (bound : option MangleRule)
    (table : list MangleRule) (items : list string) :
  mangle_loop handle bound table = Ok items →
  ∃ mangle, mangle ∈ table ∧ mark_id mangle = handle
            ∧ items = mangle_key_items mangle.
Proof.
  revert bound. induction table as [|m table IH]; intros bound; simpl.
  - by destruct bound.
  - case_bool_decide as Hm.
    + intros (m' & Hin & ? & ?)%IH. exists m'. split; [by right|done].
    + intros [= <-]. exists m. split; [by left|]. split; [|done].
      by destruct (decide (mark_id m = handle)).
Qed.

(** The items of any key are texts of fields, in one of two orders. *)
Lemma key_item_list_fields (mangle_table : list MangleRule)
    (filter_param : dict) (items : list string) :
  key_items mangle_table filter_param = Ok items →
  ∃ fields : list (string * string),
    items = render_field <$> fields
    ∧ fields.*1 `sublist_of`
        (if bool_decide (is_Some (filter_param !! Tc.HANDLE))
         then mangle_order else direct_order).
Proof.
  unfold key_item_list. case_bool_decide.
  - destruct (converted_handle _ _ _) as [handle|]; simpl; [|done].
    intros (m & _ & _ & ->)%mangle_loop_ok. apply mangle_key_items_fields.
  - apply direct_key_items_fields.
Qed.

(** A key is null exactly when it is the empty text. *)
Lemma get_filter_key_null (mangle_table : list MangleRule)
    (filter_param : dict) (key : string) :
  filter_key mangle_table filter_param = Ok key →
  is_null_string (PyStr key) = bool_decide (key = "").
Proof.
  unfold get_filter_key.
  destruct (key_item_list _ _ _ _ _ _) as [items|] eqn:E; simpl; [|done].
  intros [= <-]. apply key_item_list_fields in E as (fields & -> & _).
  apply py_join_fields_null.
Qed.

(** *** The loop over the mangle rules *)

Lemma mangle_loop_first (handle : Z) (pre post : list MangleRule)
    (mangle : MangleRule) (bound : option MangleRule) :
  Forall (λ m, mark_id m ≠ handle) pre →
  mark_id mangle = handle →
  mangle_loop handle bound (pre ++ mangle :: post) = Ok (mangle_key_items mangle).
Proof.
  intros Hpre Hm. revert bound.
  induction Hpre as [|m pre Hne _ IH]; intros bound; simpl.
  - by rewrite bool_decide_eq_false_2 by (by intros ?).
  - by rewrite bool_decide_eq_true_2.
Qed.

Lemma mangle_loop_unmatched (handle : Z) (table : list MangleRule)
    (bound : option MangleRule) :
  Forall (λ m, mark_id m ≠ handle) table →
  mangle_loop handle bound table
  = Raise match last table, bound with
          | Some m, _ | None, Some m => MangleMarkNotFound m
          | None, None => UnboundLocalError "mangle"
          end.
Proof.
  intros Hall. revert bound.
  induction Hall as [|m table Hne _ IH]; intros bound; simpl.
  - by destruct bound.
  - rewrite bool_decide_eq_true_2 by done. rewrite IH.
    destruct table as [|m' table]; [done|].
    rewrite last_cons_cons. destruct (last (m' :: table)) eqn:E; [done|].
    by apply last_None in E.
Qed.

(** A handle that no rule of the table carries ends key resolution in an
    exception: the one of the [else] clause, or the failed read of the
    loop variable when the table is empty. *)
Lemma unmatched_handle_raises (mangle_table : list MangleRule)
    (filter_param : dict) (handle : Z) :
  is_Some (filter_param !! Tc.HANDLE) →
  converted_handle int_of_str int_literal filter_param = Ok handle →
  Forall (λ m, mark_id m ≠ handle) mangle_table →
  filter_key mangle_table filter_param
  = Raise match last mangle_table with
          | Some m => MangleMarkNotFound m
          | None => UnboundLocalError "mangle"
          end.
Proof.
  intros Hh Hconv Hall. unfold get_filter_key, key_item_list.
  rewrite bool_decide_eq_true_2 by done. rewrite Hconv. simpl.
  rewrite mangle_loop_unmatched by done. simpl. by destruct (last _).
Qed.

(** C4. When the record carries a handle that passes the type test and
    that [int] converts, the key is built from the first rule of the table
    whose mark id equals the handle: the rules before it do not match, and
    whatever follows it, matching or not, leaves the key unchanged. The key
    is the destination of that rule, then its source unless the source is
    missing or blank, then its protocol, each after its name and joined by
    a comma and a space. *)
Theorem first_matching_mangle_rule_builds_key (pre post : list MangleRule)
    (mangle : MangleRule) (filter_param : dict) (handle : Z) :
  is_Some (filter_param !! Tc.HANDLE) →
  converted_handle int_of_str int_literal filter_param = Ok handle →
  Forall (λ m, mark_id m ≠ handle) pre →
  mark_id mangle = handle →
  filter_key (pre ++ mangle :: post) filter_param
  = Ok ((Tc.DST_NETWORK +:+ "=" +:+ destination mangle) +:+ ", "
        +:+ match source mangle with
            | Some s =>
                if is_blank s then Tc.PROTOCOL +:+ "=" +:+ protocol mangle
                else (Tc.SRC_NETWORK +:+ "=" +:+ s) +:+ ", "
                     +:+ (Tc.PROTOCOL +:+ "=" +:+ protocol mangle)
            | None => Tc.PROTOCOL +:+ "=" +:+ protocol mangle
            end).
Proof.
  intros Hh Hconv Hpre Hm. unfold get_filter_key, key_item_list.
  rewrite bool_decide_eq_true_2 by done. rewrite Hconv. simpl.
  rewrite mangle_loop_first by done. simpl. f_equal.
  unfold mangle_key_items.
  destruct (source mangle) as [s|]; [|done].
  simpl. by destruct (is_blank s).
Qed.

(** *** Determinism and order *)

Lemma key_item_list_agree (mangle_table : list MangleRule) (f1 f2 : dict) :
  (∀ name, name ∈ key_attributes → f1 !! name = f2 !! name) →
  key_items mangle_table f1 = key_items mangle_table f2.
Proof.
  intros Hagree.
  assert (Hget : ∀ name, name ∈ key_attributes → py_get f1 name = py_get f2 name).
  { intros name Hin. unfold py_get. by rewrite Hagree. }
  unfold key_item_list, direct_key_items, converted_handle.
  rewrite (Hagree Tc.HANDLE), (Hget Tc.HANDLE), (Hget Tc.SRC_NETWORK),
    (Hget Tc.DST_NETWORK), (Hget Tc.SRC_PORT), (Hget Tc.DST_PORT),
    (Hget Tc.PROTOCOL); first done;
    unfold key_attributes, direct_order; set_solver.
Qed.

(** C3, amended. Key construction is deterministic: two records that agree
    on the attributes a key is resolved from get the same key (or the same
    exception) under a fixed mangle table. The fields of a key built from
    the record itself appear in the order source network, dest network,
    source port, dest port, protocol; the fields of a key built from a
    mangle rule appear in the order dest network, source network,
    protocol. *)
Theorem filter_key_deterministic_and_ordered (mangle_table : list MangleRule)
    (f1 f2 : dict) :
  (∀ name, name ∈ key_attributes → f1 !! name = f2 !! name) →
  filter_key mangle_table f1 = filter_key mangle_table f2
  ∧ ∀ key, filter_key mangle_table f1 = Ok key →
      ∃ items, key_items mangle_table f1 = Ok items
        ∧ key = py_join ", " items
        ∧ fields_in_order
            (if bool_decide (is_Some (f1 !! Tc.HANDLE))
             then mangle_order else direct_order) items.
Proof.
  intros Hagree. split.
  - unfold get_filter_key. by rewrite (key_item_list_agree _ f1 f2).
  - intros key. unfold get_filter_key.
    destruct (key_item_list _ _ _ _ _ f1) as [items|] eqn:E; simpl; [|done].
    intros [= <-]. exists items. split; [done|]. split; [done|].
    apply key_item_list_fields in E as (fields & -> & Hsub).
    by exists fields.
Qed.

(** *** Records without a discriminating field *)

Lemma no_key_field_empty_key (mangle_table : list MangleRule) (filter_param : dict) :
  filter_param !! Tc.HANDLE = None →
  no_key_field ip_version is_anywhere_network int_of_str filter_param →
  filter_key mangle_table filter_param = Ok "".
Proof.
  intros Hh (Hsrc & Hdst & Hsp & Hdp & Hproto).
  unfold get_filter_key, key_item_list, direct_key_items.
  rewrite bool_decide_eq_false_2 by (rewrite Hh; by intros [? ?]).
  rewrite Hdst, Hsp, Hdp, Hproto.
  by destruct Hsrc as [-> | ->]; [|rewrite andb_false_r].
Qed.

End KeyProperties.

(** ** Running the loops on a store *)

Lemma objs_app (h ext : list dict) (ls : list loc) (ds : list dict) :
  objs h ls ds → objs (h ++ ext) ls ds.
Proof.
  unfold objs. intros Hobjs. eapply Forall2_impl; [exact Hobjs|].
  intros l d Hl. by apply lookup_app_l_Some.
Qed.

Lemma objs_seq (h ext records heap' : list dict) :
  heap' = h ++ records ++ ext →
  objs heap' (seq (length h) (length records)) records.
Proof.
  intros ->. revert h. induction records as [|r records IH]; intros h; simpl.
  - constructor.
  - constructor.
    + by apply list_lookup_middle.
    + specialize (IH (h ++ [r])).
      rewrite length_app, Nat.add_1_r, <- app_assoc in IH. apply IH.
Qed.

Lemma load_run (s : state) (l : loc) (d : dict) :
  heap s !! l = Some d → load l s = (s, Ok d).
Proof. intros Hl. unfold load. by rewrite Hl. Qed.

Lemma dict_get_run (s : state) (l : loc) (d : dict) (k : string) :
  heap s !! l = Some d → dict_get l k s = (s, Ok (py_get d k)).
Proof.
  intros Hl. unfold dict_get, mbind, M_bind. by rewrite (load_run s l d).
Qed.

Lemma deepcopy_run (s : state) (l : loc) (d : dict) :
  heap s !! l = Some d →
  deepcopy l s = ({| con := con s; heap := heap s ++ [d] |}, Ok (length (heap s))).
Proof.
  intros Hl. unfold deepcopy, mbind, M_bind. by rewrite (load_run s l d).
Qed.

(** Deleting a key of the newest object. *)
Lemma dict_del_newest (c : list (Subcommand * pyval * dict)) (h : list dict)
    (d : dict) (k : string) :
  dict_del (length h) k {| con := c; heap := h ++ [d] |}
  = if bool_decide (is_Some (d !! k))
    then ({| con := c; heap := h ++ [delete k d] |}, Ok ())
    else ({| con := c; heap := h ++ [d] |}, Raise (KeyError k)).
Proof.
  unfold dict_del, mbind, M_bind.
  rewrite (load_run _ _ d) by (by apply list_lookup_middle).
  case_bool_decide; [|done].
  unfold store. simpl. f_equal. f_equal.
  rewrite insert_app_r_alt by done. by rewrite Nat.sub_diag.
Qed.

Lemma except_KeyError_pass_newest (c : list (Subcommand * pyval * dict))
    (h : list dict) (d : dict) (k : string) :
  except_KeyError_pass (dict_del (length h) k) {| con := c; heap := h ++ [d] |}
  = ({| con := c; heap := h ++ [delete k d] |}, Ok ()).
Proof.
  unfold except_KeyError_pass. rewrite dict_del_newest.
  case_bool_decide as Hk; [done|].
  rewrite delete_id; [done|].
  by apply eq_None_not_Some.
Qed.

Section Simulation.
Context {tc : Tc.Param}.

Variable ip_version : Z.
Variable is_anywhere_network : pyval → Z → bool.
Variable int_of_str : string → option Z.
Variable int_literal : string → option Z.
Variable mangle_table : list MangleRule.
Variable run_tc_show : Subcommand → pyval → result string.
Variable qdisc_records class_records filter_records
  : pyval → string → result (list dict).

Local Abbreviation filter_key :=
  (get_filter_key ip_version is_anywhere_network int_of_str int_literal mangle_table).
Local Abbreviation rules :=
  (shaping_rules ip_version is_anywhere_network int_of_str int_literal mangle_table).
Local Abbreviation run_filter_loop :=
  (filter_loop ip_version is_anywhere_network int_of_str int_literal mangle_table).
Local Abbreviation run_get_shaping_rule :=
  (get_shaping_rule ip_version is_anywhere_network int_of_str int_literal mangle_table
     run_tc_show qdisc_records class_records filter_records).
Local Abbreviation rule_of :=
  (shaping_rule_of ip_version is_anywhere_network int_of_str int_literal mangle_table
     run_tc_show qdisc_records class_records filter_records).
Local Abbreviation records_of :=
  (parsed_records run_tc_show qdisc_records class_records filter_records).

(** [__strip_qdisc_param] allocates one object, the stripped copy, and
    leaves every other object as it was. *)
Lemma strip_qdisc_param_run (s : state) (l : loc) (d : dict) :
  heap s !! l = Some d →
  strip_qdisc_param l s
  = ({| con := con s; heap := heap s ++ [strip_qdisc d] |}, Ok (length (heap s))).
Proof.
  intros Hl. unfold strip_qdisc_param.
  unfold mbind at 1, M_bind at 1. rewrite (deepcopy_run s l d Hl).
  unfold mbind at 1, M_bind at 1. rewrite except_KeyError_pass_newest.
  unfold mbind at 1, M_bind at 1. rewrite except_KeyError_pass_newest.
  done.
Qed.

Lemma qdisc_loop_run (fl : loc) (fp : dict) (ls : list loc) (ds : list dict)
    (s : state) (acc : dict) :
  heap s !! fl = Some fp →
  objs (heap s) ls ds →
  ∃ ext, qdisc_loop fl ls acc s
         = ({| con := con s; heap := heap s ++ ext |}, Ok (qdisc_params fp ds acc)).
Proof.
  intros Hfl Hobjs. revert ds s acc Hfl Hobjs.
  induction ls as [|l ls IH]; intros ds s acc Hfl Hobjs.
  - apply Forall2_nil_inv_l in Hobjs as ->. exists []. simpl.
    rewrite app_nil_r. by destruct s.
  - apply Forall2_cons_inv_l in Hobjs as (d & ds' & Hl & Hobjs & ->).
    simpl. unfold mbind at 1, M_bind at 1. rewrite (dict_get_run s l d) by done.
    unfold mbind at 1, M_bind at 1. rewrite (dict_get_run s fl fp) by done.
    unfold mbind at 1, M_bind at 1. rewrite (dict_get_run s fl fp) by done.
    fold (join_ids fp). case_bool_decide.
    + by apply IH.
    + unfold mbind at 1, M_bind at 1. rewrite (strip_qdisc_param_run s l d) by done.
      unfold mbind at 1, M_bind at 1.
      rewrite (load_run _ _ (strip_qdisc d)) by (by apply list_lookup_middle).
      destruct (IH ds' {| con := con s; heap := heap s ++ [strip_qdisc d] |}
                  (strip_qdisc d ∪ acc)) as [ext Hrun].
      * by apply lookup_app_l_Some.
      * by apply objs_app.
      * exists ([strip_qdisc d] ++ ext). rewrite Hrun. simpl.
        by rewrite <- app_assoc.
Qed.

Lemma class_loop_run (fl : loc) (fp : dict) (ls : list loc) (ds : list dict)
    (s : state) (acc : dict) :
  heap s !! fl = Some fp →
  objs (heap s) ls ds →
  ∃ ext, class_loop fl ls acc s
         = ({| con := con s; heap := heap s ++ ext |}, class_params fp ds acc).
Proof.
  intros Hfl Hobjs. revert ds s acc Hfl Hobjs.
  induction ls as [|l ls IH]; intros ds s acc Hfl Hobjs.
  - apply Forall2_nil_inv_l in Hobjs as ->. exists []. simpl.
    rewrite app_nil_r. by destruct s.
  - apply Forall2_cons_inv_l in Hobjs as (d & ds' & Hl & Hobjs & ->).
    simpl. unfold mbind at 1, M_bind at 1. rewrite (dict_get_run s l d) by done.
    unfold mbind at 1, M_bind at 1. rewrite (dict_get_run s fl fp) by done.
    unfold mbind at 1, M_bind at 1. rewrite (dict_get_run s fl fp) by done.
    fold (join_ids fp). case_bool_decide.
    + by apply IH.
    + unfold mbind at 1, M_bind at 1. rewrite (deepcopy_run s l d) by done.
      unfold mbind at 1, M_bind at 1. rewrite dict_del_newest.
      case_bool_decide.
      * unfold mbind at 1, M_bind at 1.
        rewrite (load_run _ _ (delete Tc.CLASS_ID d)) by (by apply list_lookup_middle).
        destruct (IH ds' {| con := con s; heap := heap s ++ [delete Tc.CLASS_ID d] |}
                    (delete Tc.CLASS_ID d ∪ acc)) as [ext Hrun].
        -- by apply lookup_app_l_Some.
        -- by apply objs_app.
        -- exists ([delete Tc.CLASS_ID d] ++ ext). rewrite Hrun. simpl.
           by rewrite <- app_assoc.
      * by exists [d].
Qed.

(** The filter loop computes [shaping_rules] of the values of the records
    and only appends objects to the heap. *)
Lemma filter_loop_run (fls qls cls : list loc) (fds qds cds : list dict)
    (s : state) (mapping : gmap string dict) :
  objs (heap s) fls fds →
  objs (heap s) qls qds →
  objs (heap s) cls cds →
  ∃ ext, run_filter_loop fls qls cls mapping s
         = ({| con := con s; heap := heap s ++ ext |}, rules fds qds cds mapping).
Proof.
  intros Hf Hq Hc. revert fds s mapping Hf Hq Hc.
  induction fls as [|fl fls IH]; intros fds s mapping Hf Hq Hc.
  - apply Forall2_nil_inv_l in Hf as ->. exists []. simpl.
    rewrite app_nil_r. by destruct s.
  - apply Forall2_cons_inv_l in Hf as (fp & fds' & Hfl & Hf & ->).
    simpl. unfold mbind at 1, M_bind at 1. rewrite (load_run s fl fp) by done.
    unfold mbind at 1, M_bind at 1. unfold lift at 1.
    destruct (filter_key fp) as [key|e]; simpl.
    2:{ exists []. rewrite app_nil_r. by destruct s. }
    destruct (is_blank key).
    { by apply IH. }
    unfold mbind at 1, M_bind at 1.
    destruct (qdisc_loop_run fl fp qls qds s ∅ Hfl Hq) as [ext1 ->].
    unfold mbind at 1, M_bind at 1. unfold merged_params.
    destruct (class_loop_run fl fp cls cds
                {| con := con s; heap := heap s ++ ext1 |}
                (qdisc_params fp qds ∅)) as [ext2 ->];
      [by apply lookup_app_l_Some | by apply objs_app |].
    simpl. rewrite <- app_assoc.
    destruct (class_params fp cds (qdisc_params fp qds ∅)) as [rule|e]; simpl.
    2:{ by exists (ext1 ++ ext2). }
    set (s2 := {| con := con s; heap := heap s ++ ext1 ++ ext2 |}).
    assert (Hs2 : ∀ m', ∃ ext, run_filter_loop fls qls cls m' s2
              = ({| con := con s; heap := heap s ++ ext |}, rules fds' qds cds m')).
    { intros m'.
      destruct (IH fds' s2 m') as [ext Hrun]; [by apply objs_app..|].
      exists ((ext1 ++ ext2) ++ ext). rewrite Hrun. simpl.
      by rewrite <- !app_assoc. }
    case_bool_decide; apply Hs2.
Qed.

(** *** The parsers and the whole reconstruction *)

(** The heap of the goal extends the heap it is compared with. *)
Local Ltac grows :=
  simpl; rewrite <- ?app_assoc; apply prefix_app_r; reflexivity.

Lemma alloc_list_run (records : list dict) (s : state) :
  alloc_list records s
  = ({| con := con s; heap := heap s ++ records |},
     Ok (seq (length (heap s)) (length records))).
Proof.
  revert s. induction records as [|r records IH]; intros s; simpl.
  - unfold mret, M_ret. rewrite app_nil_r. by destruct s.
  - unfold mbind at 1, M_bind at 1. unfold alloc at 1.
    unfold mbind at 1, M_bind at 1. rewrite IH. simpl.
    unfold mret, M_ret. by rewrite length_app, Nat.add_1_r, <- app_assoc.
Qed.

Lemma parser_parse_run (table : Subcommand)
    (grammar : pyval → string → result (list dict))
    (device : pyval) (text : string) (s : state) :
  parser_parse table grammar device text s
  = match grammar device text with
    | Ok records =>
        ({| con := con s ++ ((λ r, (table, device, r)) <$> records);
            heap := heap s ++ records |},
         Ok (seq (length (heap s)) (length records)))
    | Raise e => (s, Raise e)
    end.
Proof.
  unfold parser_parse. unfold mbind at 1, M_bind at 1. unfold lift.
  destruct (grammar device text) as [records|e]; [|done].
  unfold mbind at 1, M_bind at 1. unfold con_insert at 1.
  by rewrite alloc_list_run.
Qed.

(** The result of [__get_shaping_rule] is a function of the texts of its
    own three queries: it does not depend on the state it starts from,
    and the objects of that state are left as they were. *)
Lemma get_shaping_rule_run (device : pyval) (s : state) :
  ∃ s', run_get_shaping_rule device s = (s', rule_of device)
        ∧ heap s `prefix_of` heap s'.
Proof.
  unfold get_shaping_rule, shaping_rule_of, parsed_records.
  destruct (is_null_string device); [by exists s|].
  unfold parse_tc_class, parse_tc_filter, parse_tc_qdisc.
  unfold mbind at 1, M_bind at 1. unfold mbind at 1, M_bind at 1. unfold lift at 1.
  destruct (run_tc_show CLASS device) as [ct|e]; simpl; [|by exists s].
  rewrite parser_parse_run.
  destruct (class_records device ct) as [cs|e]; simpl; [|by exists s].
  unfold mbind at 1, M_bind at 1. unfold mbind at 1, M_bind at 1. unfold lift at 1.
  destruct (run_tc_show FILTER device) as [ft|e]; simpl;
    [|eexists; split; [done|grows]].
  rewrite parser_parse_run.
  destruct (filter_records device ft) as [fs|e]; simpl;
    [|eexists; split; [done|grows]].
  unfold mbind at 1, M_bind at 1. unfold mbind at 1, M_bind at 1. unfold lift at 1.
  destruct (run_tc_show QDISC device) as [qt|e]; simpl;
    [|eexists; split; [done|grows]].
  rewrite parser_parse_run.
  destruct (qdisc_records device qt) as [qs|e]; simpl;
    [|eexists; split; [done|grows]].
  match goal with
  | |- ∃ _, filter_loop _ _ _ _ _ ?fls ?qls ?cls _ ?s3 = _ ∧ _ =>
      destruct (filter_loop_run fls qls cls fs qs cs s3 ∅) as [ext Hrun]
  end.
  - apply (objs_seq (heap s ++ cs) (qs ++ [])). simpl.
    by rewrite app_nil_r, <- !app_assoc.
  - apply (objs_seq ((heap s ++ cs) ++ fs) []). simpl. by rewrite app_nil_r.
  - apply (objs_seq (heap s) (fs ++ qs)). simpl. by rewrite <- !app_assoc.
  - eexists. split; [exact Hrun|]. grows.
Qed.

Variable device : string.
Variable ifb_device : pyval.

Local Abbreviation run_get_tc_parameter :=
  (get_tc_parameter ip_version is_anywhere_network int_of_str int_literal mangle_table
     run_tc_show qdisc_records class_records filter_records device ifb_device).

Lemma get_tc_parameter_run (s : state) :
  ∃ s', run_get_tc_parameter s
        = (s', outgoing ← rule_of (PyStr device);
               incoming ← rule_of ifb_device;
               Ok {[ device := {[ OUTGOING := outgoing; INCOMING := incoming ]} ]}).
Proof.
  unfold get_tc_parameter. unfold mbind at 1, M_bind at 1.
  destruct (get_shaping_rule_run (PyStr device) s) as (s1 & -> & _).
  destruct (rule_of (PyStr device)) as [outgoing|e]; [|by exists s1].
  unfold mbind at 1, M_bind at 1.
  destruct (get_shaping_rule_run ifb_device s1) as (s2 & -> & _).
  destruct (rule_of ifb_device) as [incoming|e]; by exists s2.
Qed.

End Simulation.

(** ** The join *)

Lemma foldl_updates (a : dict) (ds : list dict) :
  foldl (λ acc d : dict, d ∪ acc) a ds = dict_updates ds ∪ a.
Proof.
  revert a. induction ds as [|d ds IH]; intros a.
  - unfold dict_updates. simpl. by rewrite (left_id_L ∅ (∪)).
  - unfold dict_updates. simpl. rewrite !IH.
    by rewrite (right_id_L ∅ (∪)), (assoc_L (∪)).
Qed.

Lemma dict_updates_cons (d : dict) (ds : list dict) :
  dict_updates (d :: ds) = dict_updates ds ∪ d.
Proof.
  unfold dict_updates at 1. simpl. by rewrite foldl_updates, (right_id_L ∅ (∪)).
Qed.

(** A key of the merge comes from one of the merged mappings. *)
Lemma dict_updates_lookup (ds : list dict) (k : string) (v : pyval) :
  dict_updates ds !! k = Some v → ∃ d, d ∈ ds ∧ d !! k = Some v.
Proof.
  induction ds as [|d ds IH].
  - unfold dict_updates. simpl. by rewrite lookup_empty.
  - rewrite dict_updates_cons. intros [Hk | [_ Hk]]%lookup_union_Some_raw.
    + destruct (IH Hk) as (d' & Hin & Hd'). exists d'. split; [by right|done].
    + exists d. split; [by left|done].
Qed.

Section JoinProperties.
Context {tc : Tc.Param}.

Variable ip_version : Z.
Variable is_anywhere_network : pyval → Z → bool.
Variable int_of_str : string → option Z.
Variable int_literal : string → option Z.
Variable mangle_table : list MangleRule.

Local Abbreviation filter_key :=
  (get_filter_key ip_version is_anywhere_network int_of_str int_literal mangle_table).
Local Abbreviation rules :=
  (shaping_rules ip_version is_anywhere_network int_of_str int_literal mangle_table).
Local Abbreviation resolve :=
  (keys_resolve ip_version is_anywhere_network int_of_str int_literal mangle_table).

(** *** The accumulator of one filter *)

Lemma qdisc_params_spec (f : dict) (qs : list dict) (acc : dict) :
  qdisc_params f qs acc = spec_qdisc_part f qs ∪ acc.
Proof.
  revert acc. induction qs as [|q qs IH]; intros acc; simpl.
  - unfold spec_qdisc_part, dict_updates. simpl. by rewrite (left_id_L ∅ (∪)).
  - unfold spec_qdisc_part. rewrite filter_cons.
    destruct (decide (py_get q Tc.PARENT ∈ join_ids f)) as [Hin|Hout].
    + rewrite bool_decide_eq_false_2 by (by intros ?).
      rewrite IH, fmap_cons, dict_updates_cons. unfold spec_qdisc_part, strip_qdisc.
      by rewrite (assoc_L (∪)).
    + rewrite bool_decide_eq_true_2 by done. by rewrite IH.
Qed.

Lemma class_params_inv (f : dict) (cs : list dict) (acc a : dict) :
  class_params f cs acc = Ok a → a = spec_class_part f cs ∪ acc.
Proof.
  revert acc. induction cs as [|c cs IH]; intros acc; simpl.
  - intros [= <-]. unfold spec_class_part, dict_updates. simpl.
    by rewrite (left_id_L ∅ (∪)).
  - unfold spec_class_part. rewrite filter_cons.
    destruct (decide (py_get c Tc.CLASS_ID ∈ join_ids f)) as [Hin|Hout].
    + rewrite bool_decide_eq_false_2 by (by intros ?).
      case_bool_decide; [|done]. intros ->%IH.
      rewrite fmap_cons, dict_updates_cons. unfold spec_class_part.
      by rewrite (assoc_L (∪)).
    + rewrite bool_decide_eq_true_2 by done. apply IH.
Qed.

Lemma class_params_carry (f : dict) (cs : list dict) (acc : dict) :
  carry_class_id cs → ∃ a, class_params f cs acc = Ok a.
Proof.
  intros Hcarry. revert acc.
  induction Hcarry as [|c cs Hc _ IH]; intros acc; simpl.
  - by exists acc.
  - case_bool_decide; [apply IH|].
    rewrite bool_decide_eq_true_2 by done. apply IH.
Qed.

(** The accumulator the two scans build is the merge the specification
    describes, provided the class records carry their class id. *)
Lemma merged_params_spec (f : dict) (qs cs : list dict) :
  carry_class_id cs →
  merged_params f qs cs = Ok (spec_merged_params f qs cs).
Proof.
  intros Hcarry. unfold merged_params, spec_merged_params.
  destruct (class_params_carry f cs (qdisc_params f qs ∅) Hcarry) as [a Ha].
  rewrite Ha. apply class_params_inv in Ha as ->.
  by rewrite qdisc_params_spec, (right_id_L ∅ (∪)).
Qed.

Lemma merged_params_inv (f : dict) (qs cs : list dict) (a : dict) :
  merged_params f qs cs = Ok a → a = spec_merged_params f qs cs.
Proof.
  unfold merged_params, spec_merged_params. intros ->%class_params_inv.
  by rewrite qdisc_params_spec, (right_id_L ∅ (∪)).
Qed.

(** On a collision the value of the class part is the one in the merge. *)
Lemma class_value_wins (f : dict) (qs cs : list dict) (name : string) (v : pyval) :
  spec_class_part f cs !! name = Some v →
  spec_merged_params f qs cs !! name = Some v.
Proof. intros Hc. unfold spec_merged_params. by apply lookup_union_Some_l. Qed.

Lemma spec_qdisc_part_lookup (f : dict) (qs : list dict) (name : string) (v : pyval) :
  spec_qdisc_part f qs !! name = Some v →
  name ≠ Tc.PARENT ∧ name ≠ Tc.HANDLE
  ∧ ∃ q, q ∈ qs ∧ py_get q Tc.PARENT ∈ join_ids f ∧ q !! name = Some v.
Proof.
  unfold spec_qdisc_part.
  intros (d & (q & -> & [Hm Hq]%list_elem_of_filter)%list_elem_of_fmap & Hd)%dict_updates_lookup.
  apply lookup_delete_Some in Hd as [? Hd].
  apply lookup_delete_Some in Hd as [? Hd].
  repeat split; [done..|]. by exists q.
Qed.

Lemma spec_class_part_lookup (f : dict) (cs : list dict) (name : string) (v : pyval) :
  spec_class_part f cs !! name = Some v →
  name ≠ Tc.CLASS_ID
  ∧ ∃ c, c ∈ cs ∧ py_get c Tc.CLASS_ID ∈ join_ids f ∧ c !! name = Some v.
Proof.
  unfold spec_class_part.
  intros (d & (c & -> & [Hm Hc]%list_elem_of_filter)%list_elem_of_fmap & Hd)%dict_updates_lookup.
  apply lookup_delete_Some in Hd as [? Hd].
  split; [done|]. by exists c.
Qed.

(** *** The mapping of one direction *)

Lemma rules_app (fs1 fs2 qs cs : list dict) (mapping : gmap string dict) :
  rules (fs1 ++ fs2) qs cs mapping
  = (mapping' ← rules fs1 qs cs mapping; rules fs2 qs cs mapping').
Proof.
  revert mapping. induction fs1 as [|f fs1 IH]; intros mapping; simpl; [done|].
  destruct (filter_key f) as [key|]; simpl; [|done].
  destruct (is_blank key); [apply IH|].
  destruct (merged_params f qs cs) as [rule|]; simpl; [|done].
  case_bool_decide; apply IH.
Qed.

Lemma rules_ok (fs qs cs : list dict) (mapping : gmap string dict) :
  resolve fs → carry_class_id cs →
  ∃ mapping', rules fs qs cs mapping = Ok mapping'.
Proof.
  intros Hres Hcarry. revert mapping.
  induction Hres as [|f fs [key Hkey] _ IH]; intros mapping; simpl.
  - by exists mapping.
  - rewrite Hkey. simpl. destruct (is_blank key); [apply IH|].
    rewrite merged_params_spec by done. simpl.
    case_bool_decide; apply IH.
Qed.

(** A step that records a rule. *)
Lemma rules_cons_recorded (f : dict) (fs qs cs : list dict)
    (mapping : gmap string dict) (key : string) (rule : dict) :
  filter_key f = Ok key → key ≠ "" →
  merged_params f qs cs = Ok rule → rule ≠ ∅ →
  rules (f :: fs) qs cs mapping = rules fs qs cs (<[key := rule]> mapping).
Proof.
  intros Hkey Hne Hrule Hrule_ne. simpl. rewrite Hkey. simpl.
  pose proof (get_filter_key_null _ _ _ _ _ _ _ Hkey) as Hnull. simpl in Hnull.
  rewrite Hnull, bool_decide_eq_false_2 by done.
  rewrite Hrule. simpl. by rewrite bool_decide_eq_false_2.
Qed.

(** Filters with other keys leave the entry of a key as it is. *)
Lemma rules_preserve (fs qs cs : list dict) (mapping mapping' : gmap string dict)
    (key : string) :
  Forall (λ f, filter_key f ≠ Ok key) fs →
  rules fs qs cs mapping = Ok mapping' →
  mapping' !! key = mapping !! key.
Proof.
  intros Hother. revert mapping.
  induction Hother as [|f fs Hf _ IH]; intros mapping; simpl.
  - by intros [= <-].
  - destruct (filter_key f) as [key'|]; simpl; [|done].
    destruct (is_blank key'); [apply IH|].
    destruct (merged_params f qs cs) as [rule|]; simpl; [|done].
    case_bool_decide; [apply IH|].
    intros ->%IH. apply lookup_insert_ne. congruence.
Qed.

(** Every entry of the result was there from the start or is the
    non-empty accumulator of a filter under its non-empty key. *)
Lemma rules_lookup_inv (fs qs cs : list dict) (mapping mapping' : gmap string dict)
    (key : string) (rule : dict) :
  rules fs qs cs mapping = Ok mapping' →
  mapping' !! key = Some rule →
  mapping !! key = Some rule
  ∨ ∃ f, f ∈ fs ∧ filter_key f = Ok key ∧ key ≠ ""
         ∧ merged_params f qs cs = Ok rule ∧ rule ≠ ∅.
Proof.
  revert mapping. induction fs as [|f fs IH]; intros mapping; simpl.
  - intros [= <-]. by left.
  - destruct (filter_key f) as [key'|] eqn:Hkey; simpl; [|done].
    assert (Hstep : ∀ m0, rules fs qs cs m0 = Ok mapping' →
              mapping' !! key = Some rule →
              m0 !! key = Some rule
              ∨ ∃ f0, f0 ∈ f :: fs ∧ filter_key f0 = Ok key ∧ key ≠ ""
                      ∧ merged_params f0 qs cs = Ok rule ∧ rule ≠ ∅).
    { intros m0 Hrun Hlook. destruct (IH m0 Hrun Hlook) as [?|(f0 & ? & ?)];
        [by left|right]. exists f0. split; [by right|done]. }
    pose proof (get_filter_key_null _ _ _ _ _ _ _ Hkey) as Hnull. simpl in Hnull.
    rewrite Hnull. case_bool_decide as Hempty; [apply Hstep|].
    destruct (merged_params f qs cs) as [rule'|] eqn:Hrule; simpl; [|done].
    case_bool_decide as Hrule_ne; [apply Hstep|].
    intros Hrun Hlook. destruct (Hstep _ Hrun Hlook) as [Hins|?]; [|by right].
    destruct (decide (key' = key)) as [->|Hne].
    + rewrite lookup_insert_eq in Hins. injection Hins as ->.
      right. exists f. split; [by left|done].
    + rewrite lookup_insert_ne in Hins by done. by left.
Qed.

(** The last filter of a key decides the entry of that key. *)
Lemma rules_last_entry (pre post qs cs : list dict) (f : dict)
    (key : string) (rule : dict) (mapping0 mapping : gmap string dict) :
  rules (pre ++ f :: post) qs cs mapping0 = Ok mapping →
  filter_key f = Ok key → key ≠ "" →
  merged_params f qs cs = Ok rule → rule ≠ ∅ →
  Forall (λ f', filter_key f' ≠ Ok key) post →
  mapping !! key = Some rule.
Proof.
  intros Hrun Hkey Hne Hrule Hrule_ne Hpost.
  rewrite rules_app in Hrun.
  destruct (rules pre qs cs mapping0) as [m1|]; [|done].
  change (rules (f :: post) qs cs m1 = Ok mapping) in Hrun.
  rewrite (rules_cons_recorded f post qs cs m1 key rule) in Hrun by done.
  rewrite (rules_preserve _ _ _ _ _ _ Hpost Hrun). apply lookup_insert_eq.
Qed.

(** Filters with other keys, or with an empty merge, leave the entry of a
    key as it is. *)
Lemma rules_preserve_or_empty (fs qs cs : list dict)
    (mapping mapping' : gmap string dict) (key : string) :
  Forall (λ f, filter_key f ≠ Ok key ∨ spec_merged_params f qs cs = ∅) fs →
  rules fs qs cs mapping = Ok mapping' →
  mapping' !! key = mapping !! key.
Proof.
  intros Hother. revert mapping.
  induction Hother as [|f fs Hf _ IH]; intros mapping; simpl.
  - by intros [= <-].
  - destruct (filter_key f) as [key'|]; simpl; [|done].
    destruct (is_blank key'); [apply IH|].
    destruct (merged_params f qs cs) as [rule|] eqn:Hrule; simpl; [|done].
    case_bool_decide as Hempty; [apply IH|].
    intros ->%IH. apply lookup_insert_ne.
    destruct Hf as [Hkey|Hmerge]; [congruence|].
    apply merged_params_inv in Hrule. congruence.
Qed.

(** The last filter of a key with a merge that is not empty decides the
    entry of that key. *)
Lemma rules_last_nonempty_entry (pre post qs cs : list dict) (f : dict)
    (key : string) (rule : dict) (mapping0 mapping : gmap string dict) :
  rules (pre ++ f :: post) qs cs mapping0 = Ok mapping →
  filter_key f = Ok key → key ≠ "" →
  merged_params f qs cs = Ok rule → rule ≠ ∅ →
  Forall (λ f', filter_key f' ≠ Ok key ∨ spec_merged_params f' qs cs = ∅) post →
  mapping !! key = Some rule.
Proof.
  intros Hrun Hkey Hne Hrule Hrule_ne Hpost.
  rewrite rules_app in Hrun.
  destruct (rules pre qs cs mapping0) as [m1|]; [|done].
  change (rules (f :: post) qs cs m1 = Ok mapping) in Hrun.
  rewrite (rules_cons_recorded f post qs cs m1 key rule) in Hrun by done.
  rewrite (rules_preserve_or_empty _ _ _ _ _ _ Hpost Hrun). apply lookup_insert_eq.
Qed.

(** Where every qdisc record carries a parent and every class record a
    class id, nothing absent is compared and the merge is the one the
    specification words. *)
Lemma spec_merged_params_stated (f : dict) (qs cs : list dict) :
  Forall (λ q, py_get q Tc.PARENT ≠ PyNone) qs →
  Forall (λ c, py_get c Tc.CLASS_ID ≠ PyNone) cs →
  spec_merged_params f qs cs = stated_merged_params f qs cs.
Proof.
  assert (Hfilter : ∀ (name : string) (ds : list dict),
            Forall (λ d, py_get d name ≠ PyNone) ds →
            filter (λ d, py_get d name ∈ join_ids f) ds
            = filter (λ d, py_get d name ∈ present_ids f) ds).
  { intros name ds Hall. induction Hall as [|d ds Hd _ IH]; [done|].
    rewrite !filter_cons, IH.
    destruct (decide (py_get d name ∈ join_ids f)) as [Hin|Hout];
      destruct (decide (py_get d name ∈ present_ids f)) as [Hin'|Hout']; try done.
    - exfalso. apply Hout'. by apply list_elem_of_filter.
    - exfalso. by apply list_elem_of_filter in Hin' as [_ ?]. }
  intros Hqs Hcs.
  unfold spec_merged_params, stated_merged_params, spec_class_part,
    stated_class_part, spec_qdisc_part, stated_qdisc_part.
  by rewrite (Hfilter Tc.PARENT qs Hqs), (Hfilter Tc.CLASS_ID cs Hcs).
Qed.

(** If the loop gets as far as the accumulator of a filter, the accumulator
    is the merge the specification describes. *)
Lemma rules_reach_merge (pre post qs cs : list dict) (f : dict)
    (key : string) (mapping0 mapping : gmap string dict) :
  rules (pre ++ f :: post) qs cs mapping0 = Ok mapping →
  filter_key f = Ok key → key ≠ "" →
  merged_params f qs cs = Ok (spec_merged_params f qs cs).
Proof.
  intros Hrun Hkey Hne. rewrite rules_app in Hrun.
  destruct (rules pre qs cs mapping0) as [m1|]; [|done].
  change (rules (f :: post) qs cs m1 = Ok mapping) in Hrun.
  simpl in Hrun. rewrite Hkey in Hrun. simpl in Hrun.
  pose proof (get_filter_key_null _ _ _ _ _ _ _ Hkey) as Hnull. simpl in Hnull.
  rewrite Hnull, bool_decide_eq_false_2 in Hrun by done.
  destruct (merged_params f qs cs) as [rule|] eqn:Hrule; [|done].
  by apply merged_params_inv in Hrule as ->.
Qed.

End JoinProperties.

(** ** The reconstruction of one direction and of a device *)

Section Reconstruction.
Context {tc : Tc.Param}.

Variable ip_version : Z.
Variable is_anywhere_network : pyval → Z → bool.
Variable int_of_str : string → option Z.
Variable int_literal : string → option Z.
Variable mangle_table : list MangleRule.
Variable run_tc_show : Subcommand → pyval → result string.
Variable qdisc_records class_records filter_records
  : pyval → string → result (list dict).
Variable device : string.
Variable ifb_device : pyval.

Local Abbreviation filter_key :=
  (get_filter_key ip_version is_anywhere_network int_of_str int_literal mangle_table).
Local Abbreviation rules :=
  (shaping_rules ip_version is_anywhere_network int_of_str int_literal mangle_table).
Local Abbreviation resolve :=
  (keys_resolve ip_version is_anywhere_network int_of_str int_literal mangle_table).
Local Abbreviation run_filter_loop :=
  (filter_loop ip_version is_anywhere_network int_of_str int_literal mangle_table).
Local Abbreviation run_get_shaping_rule :=
  (get_shaping_rule ip_version is_anywhere_network int_of_str int_literal mangle_table
     run_tc_show qdisc_records class_records filter_records).
Local Abbreviation rule_of :=
  (shaping_rule_of ip_version is_anywhere_network int_of_str int_literal mangle_table
     run_tc_show qdisc_records class_records filter_records).
Local Abbreviation records_of :=
  (parsed_records run_tc_show qdisc_records class_records filter_records).
Local Abbreviation run_get_tc_parameter :=
  (get_tc_parameter ip_version is_anywhere_network int_of_str int_literal mangle_table
     run_tc_show qdisc_records class_records filter_records device ifb_device).

(** The state in which a parser starts that has run no query yet. *)
Local Abbreviation fresh := {| con := []; heap := [] |}.

Lemma rule_of_parsed (dev : pyval) (cs fs qs : list dict) :
  is_null_string dev = false →
  records_of dev = Ok (cs, fs, qs) →
  rule_of dev = rules fs qs cs ∅.
Proof.
  intros Hdev Hrec. unfold shaping_rule_of. by rewrite Hdev, Hrec.
Qed.

Lemma rule_of_ok_inv (dev : pyval) (mapping : gmap string dict) :
  rule_of dev = Ok mapping →
  mapping = ∅
  ∨ ∃ cs fs qs, records_of dev = Ok (cs, fs, qs)
                ∧ rules fs qs cs ∅ = Ok mapping.
Proof.
  unfold shaping_rule_of. destruct (is_null_string dev).
  - intros [= <-]. by left.
  - destruct (records_of dev) as [[[cs fs] qs]|]; simpl; [|done].
    intros Hrun. right. by exists cs, fs, qs.
Qed.

Lemma get_shaping_rule_returns (dev : pyval) (cs fs qs : list dict) (s : state) :
  is_null_string dev = false →
  records_of dev = Ok (cs, fs, qs) →
  resolve fs → carry_class_id cs →
  ∃ s' mapping, run_get_shaping_rule dev s = (s', Ok mapping).
Proof.
  intros Hdev Hrec Hres Hcarry.
  destruct (get_shaping_rule_run ip_version is_anywhere_network int_of_str int_literal
              mangle_table run_tc_show qdisc_records class_records
              filter_records dev s) as (s' & Hs' & _).
  destruct (rules_ok ip_version is_anywhere_network int_of_str int_literal mangle_table
              fs qs cs ∅ Hres Hcarry) as [mapping Hrun].
  rewrite (rule_of_parsed dev cs fs qs Hdev Hrec), Hrun in Hs'.
  by exists s', mapping.
Qed.

Lemma get_shaping_rule_returned (dev : pyval) (cs fs qs : list dict)
    (s s' : state) (mapping : gmap string dict) :
  is_null_string dev = false →
  records_of dev = Ok (cs, fs, qs) →
  run_get_shaping_rule dev s = (s', Ok mapping) →
  rules fs qs cs ∅ = Ok mapping.
Proof.
  intros Hdev Hrec Hrun.
  destruct (get_shaping_rule_run ip_version is_anywhere_network int_of_str int_literal
              mangle_table run_tc_show qdisc_records class_records
              filter_records dev s) as (s'' & Hs'' & _).
  rewrite Hrun in Hs''. injection Hs'' as _ Hmap.
  by rewrite (rule_of_parsed dev cs fs qs Hdev Hrec) in Hmap.
Qed.

(** C2, amended. The accumulator recorded under the non-empty key of a
    filter is the merge of the parameters of the qdisc records whose parent
    equals the flow id or the class id of the filter, without parent and
    handle, updated by the parameters of the class records whose class id
    equals one of the two, without the class id; where both carry a name,
    the value of the class record is the one recorded. An absent parent,
    class id or flow id reads as [None] in these comparisons, so that a
    record without a parent matches a filter that lacks one of its two
    ids; where every qdisc record carries a parent and every class record
    a class id, the merge is the one of records whose identifier equals an
    identifier of the filter. The filter is the last one of its key whose
    merge is not empty; the reconstruction returns when every key resolves
    and every class record carries its class id. *)
Theorem merged_params_recorded_under_key (dev : pyval) (cs pre post qs : list dict)
    (f : dict) (key : string) :
  is_null_string dev = false →
  records_of dev = Ok (cs, pre ++ f :: post, qs) →
  filter_key f = Ok key → key ≠ "" →
  spec_merged_params f qs cs ≠ ∅ →
  Forall (λ f', filter_key f' ≠ Ok key ∨ spec_merged_params f' qs cs = ∅) post →
  (∀ s s' mapping,
     run_get_shaping_rule dev s = (s', Ok mapping) →
     mapping !! key = Some (spec_merged_params f qs cs))
  ∧ (resolve (pre ++ f :: post) → carry_class_id cs →
     ∀ s, ∃ s' mapping, run_get_shaping_rule dev s = (s', Ok mapping))
  ∧ (∀ name v, spec_class_part f cs !! name = Some v →
               spec_merged_params f qs cs !! name = Some v)
  ∧ (Forall (λ q, py_get q Tc.PARENT ≠ PyNone) qs →
     Forall (λ c, py_get c Tc.CLASS_ID ≠ PyNone) cs →
     spec_merged_params f qs cs = stated_merged_params f qs cs).
Proof.
  intros Hdev Hrec Hkey Hne Hrule Hpost. split; [|split; [|split]].
  - intros s s' mapping Hrun.
    apply (get_shaping_rule_returned dev cs _ qs s s' mapping Hdev Hrec) in Hrun.
    apply (rules_last_nonempty_entry ip_version is_anywhere_network int_of_str
             int_literal mangle_table pre post qs cs f key _ ∅ mapping Hrun);
      try done.
    by apply (rules_reach_merge ip_version is_anywhere_network int_of_str
                int_literal mangle_table pre post qs cs f key ∅ mapping).
  - intros Hres Hcarry s.
    by apply (get_shaping_rule_returns dev cs (pre ++ f :: post) qs).
  - intros name v. apply class_value_wins.
  - apply spec_merged_params_stated.
Qed.

(** C5. When two filter records of one list resolve to the same non-empty
    key and both have a non-empty accumulator, the mapping holds under
    that key the accumulator of the later one (the last of that key), and
    the duplicate raises no error: the reconstruction returns when every
    key resolves and every class record carries its class id. *)
Theorem later_filter_overwrites (dev : pyval) (cs pre mid post qs : list dict)
    (f1 f2 : dict) (key : string) (rule1 rule2 : dict) :
  is_null_string dev = false →
  records_of dev = Ok (cs, pre ++ f1 :: mid ++ f2 :: post, qs) →
  filter_key f1 = Ok key → filter_key f2 = Ok key → key ≠ "" →
  merged_params f1 qs cs = Ok rule1 → rule1 ≠ ∅ →
  merged_params f2 qs cs = Ok rule2 → rule2 ≠ ∅ →
  Forall (λ f', filter_key f' ≠ Ok key) post →
  (∀ s s' mapping,
     run_get_shaping_rule dev s = (s', Ok mapping) →
     mapping !! key = Some rule2)
  ∧ (resolve (pre ++ f1 :: mid ++ f2 :: post) → carry_class_id cs →
     ∀ s, ∃ s' mapping, run_get_shaping_rule dev s = (s', Ok mapping)).
Proof.
  intros Hdev Hrec _ Hkey2 Hne _ _ Hrule2 Hne2 Hpost. split.
  - intros s s' mapping Hrun.
    apply (get_shaping_rule_returned dev cs _ qs s s' mapping Hdev Hrec) in Hrun.
    replace (pre ++ f1 :: mid ++ f2 :: post)
      with ((pre ++ f1 :: mid) ++ f2 :: post) in Hrun by (by rewrite <- app_assoc).
    by apply (rules_last_entry ip_version is_anywhere_network int_of_str int_literal
                mangle_table (pre ++ f1 :: mid) post qs cs f2 key rule2 ∅ mapping).
  - intros Hres Hcarry s.
    by apply (get_shaping_rule_returns dev cs (pre ++ f1 :: mid ++ f2 :: post) qs).
Qed.

(** The empty text is never a key of a reconstructed mapping. *)
Lemma empty_key_never_recorded (dev : pyval) (s s' : state)
    (mapping : gmap string dict) :
  run_get_shaping_rule dev s = (s', Ok mapping) → mapping !! "" = None.
Proof.
  intros Hrun.
  destruct (get_shaping_rule_run ip_version is_anywhere_network int_of_str int_literal
              mangle_table run_tc_show qdisc_records class_records
              filter_records dev s) as (s'' & Hs'' & _).
  rewrite Hrun in Hs''. injection Hs'' as _ Hmap. symmetry in Hmap.
  apply rule_of_ok_inv in Hmap as [->|(cs & fs & qs & _ & Hrules)]; [done|].
  destruct (mapping !! "") as [rule|] eqn:Hlook; [|done].
  by destruct (rules_lookup_inv _ _ _ _ _ _ _ _ _ _ _ _ Hrules Hlook)
    as [?|(f & _ & _ & ? & _)].
Qed.

(** C6, amended. A filter record without a handle, whose source network is
    absent or the any-address network and whose destination network,
    ports and protocol are absent, resolves to the empty key; its
    iteration of the filter loop leaves the mapping and the store as they
    were, and no reconstructed mapping has an entry under the empty key. *)
Theorem filter_without_key_field_is_skipped (f : dict) :
  f !! Tc.HANDLE = None →
  no_key_field ip_version is_anywhere_network int_of_str f →
  filter_key f = Ok ""
  ∧ (∀ fl fls qls cls mapping s,
       heap s !! fl = Some f →
       run_filter_loop (fl :: fls) qls cls mapping s
       = run_filter_loop fls qls cls mapping s)
  ∧ (∀ dev s s' mapping,
       run_get_shaping_rule dev s = (s', Ok mapping) → mapping !! "" = None).
Proof.
  intros Hh Hnone.
  pose proof (no_key_field_empty_key ip_version is_anywhere_network int_of_str int_literal
                mangle_table f Hh Hnone) as Hkey.
  split; [done|]. split.
  - intros fl fls qls cls mapping s Hfl. simpl.
    unfold mbind at 1, M_bind at 1. rewrite (load_run s fl f Hfl).
    unfold mbind at 1, M_bind at 1. unfold lift at 1. by rewrite Hkey.
  - apply empty_key_never_recorded.
Qed.

(** C7. When no IFB device is resolved, the incoming direction runs no
    query and yields the empty mapping; the result of [get_tc_parameter]
    then has, for the device, the key INCOMING with the empty mapping
    next to the outgoing rules. *)
Theorem no_ifb_incoming_is_empty (s : state) :
  is_null_string ifb_device = true →
  run_get_shaping_rule ifb_device s = (s, Ok ∅)
  ∧ ∀ s1 outgoing,
      run_get_shaping_rule (PyStr device) s = (s1, Ok outgoing) →
      ∃ r inner,
        run_get_tc_parameter s = (s1, Ok r)
        ∧ r !! device = Some inner
        ∧ inner !! OUTGOING = Some outgoing
        ∧ inner !! INCOMING = Some ∅.
Proof.
  intros Hnull. split.
  - unfold get_shaping_rule. by rewrite Hnull.
  - intros s1 outgoing Hout.
    exists {[ device := {[ OUTGOING := outgoing; INCOMING := ∅ ]} ]},
           {[ OUTGOING := outgoing; INCOMING := ∅ ]}.
    split; [|split; [|split]].
    + unfold get_tc_parameter. unfold mbind at 1, M_bind at 1. rewrite Hout.
      unfold mbind at 1, M_bind at 1. unfold get_shaping_rule at 1.
      by rewrite Hnull.
    + apply lookup_singleton_eq.
    + apply lookup_insert_eq.
    + rewrite lookup_insert_ne by done. apply lookup_singleton_eq.
Qed.

(** C8, amended. A mapping stored in the output has no parent or handle
    key that a qdisc record contributed and no class id key that a class
    record contributed: a parent or handle key in it is carried by a
    class record of the parse, a class id key by a qdisc record of the
    parse. *)
Theorem join_keys_stripped_per_kind (dev : pyval) (s s' : state)
    (mapping : gmap string dict) (key : string) (rule : dict) :
  run_get_shaping_rule dev s = (s', Ok mapping) →
  mapping !! key = Some rule →
  ∃ cs fs qs,
    records_of dev = Ok (cs, fs, qs)
    ∧ (∀ name v, name ∈ [Tc.PARENT; Tc.HANDLE] → rule !! name = Some v →
                 ∃ c, c ∈ cs ∧ c !! name = Some v)
    ∧ (∀ v, rule !! Tc.CLASS_ID = Some v →
            ∃ q, q ∈ qs ∧ q !! Tc.CLASS_ID = Some v).
Proof.
  intros Hrun Hlook.
  destruct (get_shaping_rule_run ip_version is_anywhere_network int_of_str int_literal
              mangle_table run_tc_show qdisc_records class_records
              filter_records dev s) as (s'' & Hs'' & _).
  rewrite Hrun in Hs''. injection Hs'' as _ Hmap. symmetry in Hmap.
  apply rule_of_ok_inv in Hmap as [->|(cs & fs & qs & Hrec & Hrules)]; [done|].
  exists cs, fs, qs. split; [done|].
  destruct (rules_lookup_inv _ _ _ _ _ _ _ _ _ _ _ _ Hrules Hlook)
    as [?|(f & _ & _ & _ & Hrule & _)]; [done|].
  apply merged_params_inv in Hrule as ->. unfold spec_merged_params. split.
  - intros name v Hname [Hc|[_ Hq]]%lookup_union_Some_raw.
    + apply spec_class_part_lookup in Hc as (_ & c & ? & _ & ?). by exists c.
    + apply spec_qdisc_part_lookup in Hq as (? & ? & _).
      rewrite !elem_of_cons, elem_of_nil in Hname.
      by destruct Hname as [->|[->|[]]].
  - intros v [Hc|[_ Hq]]%lookup_union_Some_raw.
    + by apply spec_class_part_lookup in Hc as (? & _).
    + apply spec_qdisc_part_lookup in Hq as (_ & _ & q & ? & _ & ?). by exists q.
Qed.

(** C9. The mapping of a direction is a function of the texts of its own
    three queries: whatever the shared connection and the heap hold when
    the direction starts, the result is the same, and the result of
    [get_tc_parameter] is made of the two results each direction gives
    when it starts from an empty store. *)
Theorem join_sees_only_own_parse (dev : pyval) (s1 s2 : state) :
  (run_get_shaping_rule dev s1).2 = (run_get_shaping_rule dev s2).2
  ∧ (run_get_tc_parameter s1).2
    = (outgoing ← (run_get_shaping_rule (PyStr device) fresh).2;
       incoming ← (run_get_shaping_rule ifb_device fresh).2;
       Ok {[ device := {[ OUTGOING := outgoing; INCOMING := incoming ]} ]}).
Proof.
  pose proof (get_shaping_rule_run ip_version is_anywhere_network int_of_str int_literal
                mangle_table run_tc_show qdisc_records class_records
                filter_records) as Hrun.
  split.
  - destruct (Hrun dev s1) as (? & -> & _). by destruct (Hrun dev s2) as (? & -> & _).
  - destruct (get_tc_parameter_run ip_version is_anywhere_network int_of_str int_literal
                mangle_table run_tc_show qdisc_records class_records
                filter_records device ifb_device s1) as (? & ->).
    destruct (Hrun (PyStr device) fresh) as (? & -> & _).
    by destruct (Hrun ifb_device fresh) as (? & -> & _).
Qed.

(** C10. The join does not change the parsed records: after the filter
    loop every object of the store, and so every filter, qdisc and class
    record, holds the dictionary it held before, parent, handle and class
    id included, because the deletions act on copies; the mapping is
    computed from these unchanged dictionaries for every filter alike. *)
Theorem join_leaves_records_intact (fls qls cls : list loc)
    (fds qds cds : list dict) (mapping : gmap string dict) (s : state) :
  objs (heap s) fls fds →
  objs (heap s) qls qds →
  objs (heap s) cls cds →
  ∃ s', run_filter_loop fls qls cls mapping s = (s', rules fds qds cds mapping)
        ∧ con s' = con s
        ∧ heap s `prefix_of` heap s'
        ∧ objs (heap s') fls fds
        ∧ objs (heap s') qls qds
        ∧ objs (heap s') cls cds.
Proof.
  intros Hf Hq Hc.
  destruct (filter_loop_run ip_version is_anywhere_network int_of_str int_literal
              mangle_table fls qls cls fds qds cds s mapping Hf Hq Hc)
    as [ext Hrun].
  eexists. split; [exact Hrun|]. simpl.
  split; [done|]. split; [by apply prefix_app_r|].
  by split; [|split]; apply objs_app.
Qed.

End Reconstruction.

(** ** The statements on the sample configuration *)

(** C1. A filter record whose handle no mangle rule carries: the [else]
    clause of the loop formats the loop variable. On an empty table the
    variable is unbound and the read fails; on a table without a match the
    exception carries the last rule scanned, not the filter record. In both
    cases the reconstruction of the direction ends with that exception. *)
Theorem unmatched_handle_error_on_sample :
  Sample.key_of [] Sample.marked = Raise (UnboundLocalError "mangle")
  ∧ Sample.key_of [Sample.rule_c] Sample.marked
    = Raise (MangleMarkNotFound Sample.rule_c)
  ∧ (Sample.reconstruct [] [Sample.netem] [Sample.htb] [Sample.marked] Sample.empty).2
    = Raise (UnboundLocalError "mangle")
  ∧ (Sample.reconstruct [Sample.rule_c] [Sample.netem] [Sample.htb] [Sample.marked]
       Sample.empty).2
    = Raise (MangleMarkNotFound Sample.rule_c).
Proof. repeat split; vm_compute; reflexivity. Qed.

Lemma first_matching_mangle_rule_builds_key_witness :
  Sample.key_of ([Sample.rule_c] ++ Sample.rule_a :: [Sample.rule_b]) Sample.marked
  = Ok "dst-network=192.0.2.0/24, src-network=10.0.0.0/8, protocol=all".
Proof.
  apply (first_matching_mangle_rule_builds_key (tc := Sample.names) 4
           Sample.anywhere Sample.text_int Sample.int_literal [Sample.rule_c] [Sample.rule_b]
           Sample.rule_a Sample.marked 100).
  - by eexists.
  - reflexivity.
  - repeat constructor. vm_compute. discriminate.
  - reflexivity.
Defined.

(** The key of the sample record with a handle, under the sample table:
    the destination comes first. *)
Example marked_key :
  Sample.key_of [Sample.rule_c; Sample.rule_a; Sample.rule_b] Sample.marked
  = Ok "dst-network=192.0.2.0/24, src-network=10.0.0.0/8, protocol=all".
Proof. vm_compute. reflexivity. Qed.

(** The key of a record that carries all five fields. *)
Example full_direct_key :
  Sample.key_of [] Sample.full
  = Ok "src-network=10.0.0.0/8, dst-network=192.0.2.0/24, src-port=1234, dst-port=80, protocol=ip".
Proof. vm_compute. reflexivity. Qed.

(** C3 as stated fails: the items of the key of a record with a handle are
    not in the order source network, dest network, source port, dest port,
    protocol. *)
Lemma mangle_key_puts_destination_first :
  key_item_list (tc := Sample.names) 4 Sample.anywhere Sample.text_int Sample.int_literal
    [Sample.rule_a] Sample.marked
  = Ok ["dst-network=192.0.2.0/24"; "src-network=10.0.0.0/8"; "protocol=all"]
  ∧ ¬ fields_in_order (direct_order (tc := Sample.names))
        ["dst-network=192.0.2.0/24"; "src-network=10.0.0.0/8"; "protocol=all"].
Proof.
  split; [vm_compute; reflexivity|].
  intros (fields & Hsub & Heq).
  destruct fields as [|[n1 v1] [|[n2 v2] [|[n3 v3] [|]]]]; try discriminate.
  injection Heq as H1 H2 H3. unfold render_field in *. simpl in *.
  unfold direct_order in Hsub. simpl in Hsub.
  repeat match goal with
  | Hs : sublist _ _ |- _ => inversion Hs; clear Hs; subst
  end; simpl in *; discriminate.
Qed.

Lemma filter_key_deterministic_and_ordered_witness :
  Sample.key_of [] Sample.direct = Sample.key_of [] Sample.direct_again
  ∧ ∀ key, Sample.key_of [] Sample.direct = Ok key →
      ∃ items, key_item_list (tc := Sample.names) 4 Sample.anywhere Sample.text_int Sample.int_literal
                 [] Sample.direct = Ok items
        ∧ key = py_join ", " items
        ∧ fields_in_order
            (if bool_decide (is_Some (Sample.direct !! Tc.HANDLE (Param := Sample.names)))
             then mangle_order (tc := Sample.names)
             else direct_order (tc := Sample.names)) items.
Proof.
  apply (filter_key_deterministic_and_ordered (tc := Sample.names) 4
           Sample.anywhere Sample.text_int Sample.int_literal [] Sample.direct Sample.direct_again).
  intros name Hin. unfold key_attributes, direct_order in Hin.
  rewrite !elem_of_cons, elem_of_nil in Hin.
  destruct Hin as [->|[->|[->|[->|[->|[->|[]]]]]]]; vm_compute; reflexivity.
Defined.

(** The example of the specification: a qdisc record and a class record
    under the flow id of one filter, with a collision on [limit]. *)
Example sample_merge :
  spec_merged_params (tc := Sample.names) Sample.direct [Sample.netem] [Sample.htb]
  = {[ "rate" := PyStr "1Mbit"; "delay" := PyStr "100ms"; "limit" := PyStr "20" ]}.
Proof. vm_compute. reflexivity. Qed.

(** C2 as stated fails: a qdisc record without a parent is merged into the
    mapping of a filter whose only identifier is the flow id 1:10, although
    its parent does not equal that identifier; the merge of the records
    whose parent equals it has no rate. *)
Lemma parentless_qdisc_enters_recorded_merge :
  ∃ mapping,
    (Sample.reconstruct [] [Sample.netem; Edge.rootless] [] [Sample.direct]
       Sample.empty).2 = Ok mapping
    ∧ Sample.key_of [] Sample.direct = Ok "dst-network=192.0.2.0/24, protocol=ip"
    ∧ mapping !! "dst-network=192.0.2.0/24, protocol=ip"
      = Some {[ "rate" := PyStr "1Mbit"; "delay" := PyStr "100ms";
                "limit" := PyStr "10" ]}
    ∧ stated_merged_params (tc := Sample.names) Sample.direct
        [Sample.netem; Edge.rootless] []
      = {[ "delay" := PyStr "100ms"; "limit" := PyStr "10" ]}
    ∧ mapping !! "dst-network=192.0.2.0/24, protocol=ip"
      ≠ Some (stated_merged_params (tc := Sample.names) Sample.direct
                [Sample.netem; Edge.rootless] []).
Proof.
  eexists. split; [vm_compute; reflexivity|].
  split; [vm_compute; reflexivity|].
  split; [vm_compute; reflexivity|].
  split; [vm_compute; reflexivity|].
  vm_compute. discriminate.
Qed.

Lemma merged_params_recorded_under_key_witness :
  (∀ s s' mapping,
     Sample.reconstruct [] [Sample.netem] [Sample.htb]
       [Sample.direct; Sample.direct_again] s
     = (s', Ok mapping) →
     mapping !! "dst-network=192.0.2.0/24, protocol=ip"
     = Some (spec_merged_params (tc := Sample.names) Sample.direct
               [Sample.netem] [Sample.htb]))
  ∧ (keys_resolve (tc := Sample.names) 4 Sample.anywhere Sample.text_int
       Sample.int_literal [] ([] ++ Sample.direct :: [Sample.direct_again]) →
     carry_class_id (tc := Sample.names) [Sample.htb] →
     ∀ s, ∃ s' mapping,
       Sample.reconstruct [] [Sample.netem] [Sample.htb]
         [Sample.direct; Sample.direct_again] s
       = (s', Ok mapping))
  ∧ (∀ name v,
       spec_class_part (tc := Sample.names) Sample.direct [Sample.htb] !! name = Some v →
       spec_merged_params (tc := Sample.names) Sample.direct
         [Sample.netem] [Sample.htb] !! name = Some v)
  ∧ (Forall (λ q, py_get q (Tc.PARENT (Param := Sample.names)) ≠ PyNone)
       [Sample.netem] →
     Forall (λ c, py_get c (Tc.CLASS_ID (Param := Sample.names)) ≠ PyNone)
       [Sample.htb] →
     spec_merged_params (tc := Sample.names) Sample.direct [Sample.netem] [Sample.htb]
     = stated_merged_params (tc := Sample.names) Sample.direct
         [Sample.netem] [Sample.htb]).
Proof.
  apply (merged_params_recorded_under_key (tc := Sample.names) 4 Sample.anywhere
           Sample.text_int Sample.int_literal [] Sample.show
           (Sample.records [Sample.netem])
           (Sample.records [Sample.htb])
           (Sample.records [Sample.direct; Sample.direct_again])
           Sample.eth0 [Sample.htb] [] [Sample.direct_again] [Sample.netem]
           Sample.direct "dst-network=192.0.2.0/24, protocol=ip").
  - reflexivity.
  - reflexivity.
  - vm_compute. reflexivity.
  - discriminate.
  - vm_compute. discriminate.
  - constructor; [right; vm_compute; reflexivity|constructor].
Defined.

(** On the sample records, which all carry their identifiers, the recorded
    merge is the merge of the records whose identifier equals the flow id
    of the filter. *)
Example sample_merge_as_stated :
  stated_merged_params (tc := Sample.names) Sample.direct [Sample.netem] [Sample.htb]
  = {[ "rate" := PyStr "1Mbit"; "delay" := PyStr "100ms"; "limit" := PyStr "20" ]}.
Proof. vm_compute. reflexivity. Qed.

(** The hypotheses under which the sample reconstruction returns hold. *)
Example sample_records_well_formed :
  keys_resolve (tc := Sample.names) 4 Sample.anywhere Sample.text_int Sample.int_literal []
    [Sample.direct; Sample.direct_again]
  ∧ carry_class_id (tc := Sample.names) [Sample.htb].
Proof.
  split; repeat constructor; eexists; vm_compute; reflexivity.
Qed.

Lemma later_filter_overwrites_witness :
  (∀ s s' mapping,
     Sample.reconstruct [] [Sample.netem; Sample.netem20] [Sample.htb]
       [Sample.direct; Sample.direct_again] s
     = (s', Ok mapping) →
     mapping !! "dst-network=192.0.2.0/24, protocol=ip"
     = Some {[ "delay" := PyStr "5ms" ]})
  ∧ (keys_resolve (tc := Sample.names) 4 Sample.anywhere Sample.text_int Sample.int_literal []
       ([] ++ Sample.direct :: [] ++ Sample.direct_again :: []) →
     carry_class_id (tc := Sample.names) [Sample.htb] →
     ∀ s, ∃ s' mapping,
       Sample.reconstruct [] [Sample.netem; Sample.netem20] [Sample.htb]
         [Sample.direct; Sample.direct_again] s
       = (s', Ok mapping)).
Proof.
  apply (later_filter_overwrites (tc := Sample.names) 4 Sample.anywhere
           Sample.text_int Sample.int_literal [] Sample.show
           (Sample.records [Sample.netem; Sample.netem20])
           (Sample.records [Sample.htb])
           (Sample.records [Sample.direct; Sample.direct_again])
           Sample.eth0 [Sample.htb] [] [] [] [Sample.netem; Sample.netem20]
           Sample.direct Sample.direct_again
           "dst-network=192.0.2.0/24, protocol=ip"
           {[ "rate" := PyStr "1Mbit"; "delay" := PyStr "100ms";
              "limit" := PyStr "20" ]}
           {[ "delay" := PyStr "5ms" ]}).
  - reflexivity.
  - reflexivity.
  - vm_compute. reflexivity.
  - vm_compute. reflexivity.
  - discriminate.
  - vm_compute. reflexivity.
  - vm_compute. discriminate.
  - vm_compute. reflexivity.
  - vm_compute. discriminate.
  - constructor.
Defined.

(** The mapping of the sample with two filters of one key. *)
Example sample_duplicate_key :
  (Sample.reconstruct [] [Sample.netem; Sample.netem20] [Sample.htb]
     [Sample.direct; Sample.direct_again] Sample.empty).2
  = Ok {[ "dst-network=192.0.2.0/24, protocol=ip" := {[ "delay" := PyStr "5ms" ]} ]}.
Proof. vm_compute. reflexivity. Qed.

(** C6 as stated fails: a destination network that is the any-address
    network stays in the key, and the record gets an entry. *)
Lemma any_destination_is_kept :
  Sample.any_destination !! Tc.HANDLE (Param := Sample.names) = None
  ∧ unclassified (tc := Sample.names) 4 Sample.anywhere Sample.text_int
      Sample.any_destination
  ∧ Sample.key_of [] Sample.any_destination = Ok "dst-network=0.0.0.0/0"
  ∧ (Sample.reconstruct [] [Sample.netem] [] [Sample.any_destination] Sample.empty).2
    = Ok {[ "dst-network=0.0.0.0/0"
            := {[ "delay" := PyStr "100ms"; "limit" := PyStr "10" ]} ]}.
Proof.
  split; [vm_compute; reflexivity|]. split.
  - unfold unclassified, absent_or_any.
    split; [left; vm_compute; reflexivity|].
    split; [right; vm_compute; reflexivity|].
    repeat split; vm_compute; reflexivity.
  - split; vm_compute; reflexivity.
Qed.

Lemma filter_without_key_field_is_skipped_witness :
  Sample.key_of [] Sample.any_source = Ok ""
  ∧ (∀ fl fls qls cls mapping s,
       heap s !! fl = Some Sample.any_source →
       filter_loop (tc := Sample.names) 4 Sample.anywhere Sample.text_int Sample.int_literal []
         (fl :: fls) qls cls mapping s
       = filter_loop (tc := Sample.names) 4 Sample.anywhere Sample.text_int Sample.int_literal []
           fls qls cls mapping s)
  ∧ (∀ dev s s' mapping,
       get_shaping_rule (tc := Sample.names) 4 Sample.anywhere Sample.text_int Sample.int_literal []
         Sample.show (Sample.records [Sample.netem]) (Sample.records [Sample.htb])
         (Sample.records [Sample.any_source]) dev s = (s', Ok mapping) →
       mapping !! "" = None).
Proof.
  apply (filter_without_key_field_is_skipped (tc := Sample.names) 4 Sample.anywhere
           Sample.text_int Sample.int_literal [] Sample.show (Sample.records [Sample.netem])
           (Sample.records [Sample.htb]) (Sample.records [Sample.any_source])
           Sample.any_source).
  - vm_compute. reflexivity.
  - unfold no_key_field, absent_or_any.
    split; [right; vm_compute; reflexivity|].
    repeat split; vm_compute; reflexivity.
Defined.

(** A record whose only classification field is an any-address source gets
    no entry, although a qdisc and a class match its flow id. *)
Example any_source_has_no_entry :
  (Sample.reconstruct [] [Sample.netem] [Sample.htb] [Sample.any_source] Sample.empty).2
  = Ok ∅.
Proof. vm_compute. reflexivity. Qed.

Lemma no_ifb_incoming_is_empty_witness :
  get_shaping_rule (tc := Sample.names) 4 Sample.anywhere Sample.text_int Sample.int_literal []
    Sample.show (Sample.records [Sample.netem]) (Sample.records [Sample.htb])
    (Sample.records [Sample.direct]) PyNone Sample.empty
  = (Sample.empty, Ok ∅)
  ∧ ∀ s1 outgoing,
      get_shaping_rule (tc := Sample.names) 4 Sample.anywhere Sample.text_int Sample.int_literal []
        Sample.show (Sample.records [Sample.netem]) (Sample.records [Sample.htb])
        (Sample.records [Sample.direct]) (PyStr "eth0") Sample.empty
      = (s1, Ok outgoing) →
      ∃ r inner,
        get_tc_parameter (tc := Sample.names) 4 Sample.anywhere Sample.text_int Sample.int_literal []
          Sample.show (Sample.records [Sample.netem]) (Sample.records [Sample.htb])
          (Sample.records [Sample.direct]) "eth0" PyNone Sample.empty
        = (s1, Ok r)
        ∧ r !! "eth0" = Some inner
        ∧ inner !! OUTGOING = Some outgoing
        ∧ inner !! INCOMING = Some ∅.
Proof.
  apply (no_ifb_incoming_is_empty (tc := Sample.names) 4 Sample.anywhere
           Sample.text_int Sample.int_literal [] Sample.show (Sample.records [Sample.netem])
           (Sample.records [Sample.htb]) (Sample.records [Sample.direct])
           "eth0" PyNone Sample.empty).
  reflexivity.
Defined.

(** The whole result on the sample device without an IFB device. *)
Example sample_tc_parameter :
  (get_tc_parameter (tc := Sample.names) 4 Sample.anywhere Sample.text_int Sample.int_literal []
     Sample.show (Sample.records [Sample.netem]) (Sample.records [Sample.htb])
     (Sample.records [Sample.direct]) "eth0" PyNone Sample.empty).2
  = Ok {[ "eth0" :=
            {[ OUTGOING :=
                 {[ "dst-network=192.0.2.0/24, protocol=ip" :=
                      {[ "rate" := PyStr "1Mbit"; "delay" := PyStr "100ms";
                         "limit" := PyStr "20" ]} ]};
               INCOMING := ∅ ]} ]}.
Proof. vm_compute. reflexivity. Qed.

(** C8 as stated fails: the parent a class record carries stays in the
    stored mapping. *)
Lemma class_record_parent_survives :
  ∃ mapping rule,
    (Sample.reconstruct [] [Sample.netem] [Sample.htb_parent] [Sample.direct]
       Sample.empty).2 = Ok mapping
    ∧ mapping !! "dst-network=192.0.2.0/24, protocol=ip" = Some rule
    ∧ rule !! Tc.PARENT (Param := Sample.names) = Some (PyStr "1:").
Proof.
  exists {[ "dst-network=192.0.2.0/24, protocol=ip" :=
              {[ "parent" := PyStr "1:"; "rate" := PyStr "1Mbit";
                 "delay" := PyStr "100ms"; "limit" := PyStr "10" ]} ]},
         {[ "parent" := PyStr "1:"; "rate" := PyStr "1Mbit";
            "delay" := PyStr "100ms"; "limit" := PyStr "10" ]}.
  repeat split; vm_compute; reflexivity.
Qed.

Lemma join_keys_stripped_per_kind_witness :
  ∃ cs fs qs,
    parsed_records Sample.show (Sample.records [Sample.netem])
      (Sample.records [Sample.htb_parent]) (Sample.records [Sample.direct])
      Sample.eth0 = Ok (cs, fs, qs)
    ∧ (∀ name v,
         name ∈ [Tc.PARENT (Param := Sample.names); Tc.HANDLE (Param := Sample.names)] →
         ({[ "parent" := PyStr "1:"; "rate" := PyStr "1Mbit";
             "delay" := PyStr "100ms"; "limit" := PyStr "10" ]} : dict) !! name
         = Some v →
         ∃ c, c ∈ cs ∧ c !! name = Some v)
    ∧ (∀ v,
         ({[ "parent" := PyStr "1:"; "rate" := PyStr "1Mbit";
             "delay" := PyStr "100ms"; "limit" := PyStr "10" ]} : dict)
           !! Tc.CLASS_ID (Param := Sample.names) = Some v →
         ∃ q, q ∈ qs ∧ q !! Tc.CLASS_ID (Param := Sample.names) = Some v).
Proof.
  apply (join_keys_stripped_per_kind (tc := Sample.names) 4 Sample.anywhere
           Sample.text_int Sample.int_literal [] Sample.show (Sample.records [Sample.netem])
           (Sample.records [Sample.htb_parent]) (Sample.records [Sample.direct])
           Sample.eth0 Sample.empty
           (Sample.reconstruct [] [Sample.netem] [Sample.htb_parent]
              [Sample.direct] Sample.empty).1
           {[ "dst-network=192.0.2.0/24, protocol=ip" :=
                {[ "parent" := PyStr "1:"; "rate" := PyStr "1Mbit";
                   "delay" := PyStr "100ms"; "limit" := PyStr "10" ]} ]}
           "dst-network=192.0.2.0/24, protocol=ip").
  - vm_compute. reflexivity.
  - vm_compute. reflexivity.
Defined.

Lemma join_leaves_records_intact_witness :
  ∃ s',
    filter_loop (tc := Sample.names) 4 Sample.anywhere Sample.text_int Sample.int_literal []
      [0%nat; 1%nat] [2%nat] [3%nat] ∅
      {| con := []; heap := [Sample.direct; Sample.direct_again; Sample.netem; Sample.htb] |}
    = (s', shaping_rules (tc := Sample.names) 4 Sample.anywhere Sample.text_int Sample.int_literal []
             [Sample.direct; Sample.direct_again] [Sample.netem] [Sample.htb] ∅)
    ∧ con s' = []
    ∧ [Sample.direct; Sample.direct_again; Sample.netem; Sample.htb] `prefix_of` heap s'
    ∧ objs (heap s') [0%nat; 1%nat] [Sample.direct; Sample.direct_again]
    ∧ objs (heap s') [2%nat] [Sample.netem]
    ∧ objs (heap s') [3%nat] [Sample.htb].
Proof.
  apply (join_leaves_records_intact (tc := Sample.names) 4 Sample.anywhere
           Sample.text_int Sample.int_literal [] [0%nat; 1%nat] [2%nat] [3%nat]
           [Sample.direct; Sample.direct_again] [Sample.netem] [Sample.htb] ∅
           {| con := []; heap := [Sample.direct; Sample.direct_again; Sample.netem; Sample.htb] |}).
  - repeat constructor.
  - repeat constructor.
  - repeat constructor.
Defined.

(** The store tells a deletion on a record from a deletion on its copy:
    [del] on the location of the record changes the record, while
    [__strip_qdisc_param] leaves it and returns a new object. *)
Example deletion_on_a_record_is_visible :
  heap (dict_del 0%nat "parent" {| con := []; heap := [Sample.netem] |}).1
  ≠ [Sample.netem]
  ∧ heap (strip_qdisc_param (tc := Sample.names) 0%nat
            {| con := []; heap := [Sample.netem] |}).1
    = [Sample.netem; {[ "delay" := PyStr "100ms"; "limit" := PyStr "10" ]}].
Proof. split; [vm_compute; discriminate | vm_compute; reflexivity]. Qed.

(** One qdisc record and one class record under the flow id of two filters:
    each filter gets their full parameters. *)
Example record_contributes_to_each_filter :
  (Sample.reconstruct [] [Sample.netem] [Sample.htb]
     [Sample.direct; Sample.direct_other] Sample.empty).2
  = Ok {[ "dst-network=192.0.2.0/24, protocol=ip" :=
            {[ "rate" := PyStr "1Mbit"; "delay" := PyStr "100ms";
               "limit" := PyStr "20" ]};
          "dst-network=198.51.100.0/24, protocol=ip" :=
            {[ "rate" := PyStr "1Mbit"; "delay" := PyStr "100ms";
               "limit" := PyStr "20" ]} ]}.
Proof. vm_compute. reflexivity. Qed.

(** The store itself is shared: after both directions have run, the
    connection holds the rows of both devices. *)
Example connection_keeps_rows_of_both_directions :
  length (con (get_tc_parameter (tc := Sample.names) 4 Sample.anywhere Sample.text_int Sample.int_literal
                 [] Sample.show (Sample.records [Sample.netem])
                 (Sample.records [Sample.htb]) (Sample.records [Sample.direct])
                 "eth0" (PyStr "ifb0") Sample.empty).1) = 6%nat.
Proof. vm_compute. reflexivity. Qed.

(** * Further properties of the code *)

(** ** Key resolution *)

Lemma py_join_empty_inv (sep : string) (fields : list (string * string)) :
  py_join sep (render_field <$> fields) = "" → fields = [].
Proof.
  intros Hkey. destruct fields as [|f fields]; [done|]. exfalso.
  assert (Hblank : is_blank (py_join sep (render_field <$> f :: fields)) = true)
    by (by rewrite Hkey).
  apply py_join_blank in Hblank; [done|].
  apply Forall_fmap, Forall_true. intros x. apply render_field_not_blank.
Qed.

Section KeyResolution.
Context {tc : Tc.Param}.

Variable ip_version : Z.
Variable is_anywhere_network : pyval → Z → bool.
Variable int_of_str : string → option Z.
Variable int_literal : string → option Z.

Local Abbreviation key_items := (key_item_list ip_version is_anywhere_network int_of_str int_literal).
Local Abbreviation filter_key := (get_filter_key ip_version is_anywhere_network int_of_str int_literal).
Local Abbreviation direct_items := (direct_key_items ip_version is_anywhere_network int_of_str).

Lemma mangle_loop_finds (handle : Z) (bound : option MangleRule)
    (table : list MangleRule) (mangle : MangleRule) :
  mangle ∈ table → mark_id mangle = handle →
  ∃ items, mangle_loop handle bound table = Ok items.
Proof.
  intros Hin Hmark. revert bound.
  induction table as [|m table IH]; intros bound; [by apply elem_of_nil in Hin|].
  simpl. case_bool_decide as Hm; [|by eexists].
  apply elem_of_cons in Hin as [->|Hin]; [done|]. by apply IH.
Qed.

(** X1. A record that carries a handle gets a key exactly when the handle
    passes the type test, [int] converts it, and some rule of the mangle
    table carries the converted value as its mark id. *)
Theorem handle_resolves_iff_rule_exists (mangle_table : list MangleRule)
    (filter_param : dict) :
  is_Some (filter_param !! Tc.HANDLE) →
  (∃ key, filter_key mangle_table filter_param = Ok key)
  ↔ ∃ handle mangle,
      Integer_is_type int_of_str (py_get filter_param Tc.HANDLE) = true
      ∧ py_int int_literal (py_get filter_param Tc.HANDLE) = Ok handle
      ∧ mangle ∈ mangle_table ∧ mark_id mangle = handle.
Proof.
  intros Hh. unfold get_filter_key, key_item_list, converted_handle,
    Integer_validate.
  rewrite bool_decide_eq_true_2 by done.
  destruct (Integer_is_type _ _); simpl.
  - destruct (py_int _ _) as [handle|e]; simpl.
    + split.
      * intros [key Hkey].
        destruct (mangle_loop handle None mangle_table) as [items|] eqn:Hloop;
          [|done].
        apply mangle_loop_ok in Hloop as (m & ? & ? & _). by exists handle, m.
      * intros (h & m & _ & [= <-] & Hin & Hmark).
        destruct (mangle_loop_finds handle None mangle_table m Hin Hmark)
          as [items ->].
        by eexists.
    + split; [by intros [? ?]|by intros (? & ? & _ & ? & _)].
  - split; [by intros [? ?]|by intros (? & ? & ? & _)].
Qed.

(** X2. Once a record carries a handle, its own network, port and protocol
    fields have no part in the key: two records with the same handle get
    the same key, or the same exception, whatever else they hold. *)
Theorem handle_ignores_direct_fields (mangle_table : list MangleRule)
    (f1 f2 : dict) (handle : pyval) :
  f1 !! Tc.HANDLE = Some handle →
  f2 !! Tc.HANDLE = Some handle →
  filter_key mangle_table f1 = filter_key mangle_table f2.
Proof.
  intros H1 H2. unfold get_filter_key, key_item_list, converted_handle, py_get.
  by rewrite H1, H2.
Qed.

(** X3. The key of a record that carries a handle is never empty: it is
    the joined items of a rule of the table with that mark, which always
    include the destination network and the protocol. Such a record is
    therefore never dropped by the test for an empty key. *)
Theorem handle_key_never_empty (mangle_table : list MangleRule)
    (filter_param : dict) (key : string) :
  is_Some (filter_param !! Tc.HANDLE) →
  filter_key mangle_table filter_param = Ok key →
  key ≠ ""
  ∧ is_null_string (PyStr key) = false
  ∧ ∃ mangle, mangle ∈ mangle_table
      ∧ Integer_is_type int_of_str (py_get filter_param Tc.HANDLE) = true
      ∧ py_int int_literal (py_get filter_param Tc.HANDLE) = Ok (mark_id mangle)
      ∧ key = py_join ", " (mangle_key_items mangle).
Proof.
  intros Hh Hkey.
  assert (Hfound : ∃ mangle, mangle ∈ mangle_table
            ∧ Integer_is_type int_of_str (py_get filter_param Tc.HANDLE) = true
            ∧ py_int int_literal (py_get filter_param Tc.HANDLE)
              = Ok (mark_id mangle)
            ∧ key = py_join ", " (mangle_key_items mangle)).
  { revert Hkey. unfold get_filter_key, key_item_list, converted_handle,
      Integer_validate.
    rewrite bool_decide_eq_true_2 by done.
    destruct (Integer_is_type _ _); simpl; [|done].
    destruct (py_int _ _) as [handle|]; simpl; [|done].
    destruct (mangle_loop handle None mangle_table) as [items|] eqn:Hloop; [|done].
    simpl. intros [= <-].
    apply mangle_loop_ok in Hloop as (m & ? & <- & ->). by exists m. }
  assert (Hne : key ≠ "").
  { destruct Hfound as (m & _ & _ & _ & ->).
    destruct (mangle_key_items_fields m) as (fields & Hitems & _).
    rewrite Hitems. intros Hempty%py_join_empty_inv.
    rewrite Hempty in Hitems. unfold mangle_key_items in Hitems. done. }
  split; [done|]. split; [|done].
  rewrite (get_filter_key_null _ _ _ _ _ _ _ Hkey). by apply bool_decide_eq_false_2.
Qed.

Lemma item_s_nil (c : bool) (name : string) (v : pyval) :
  (if c then i ← format_param_s name v; Ok [i] else Ok []) = Ok [] → c = false.
Proof. destruct c; [|done]. by destruct v. Qed.

Lemma item_d_nil (c : bool) (name : string) (v : pyval) :
  (if c then i ← format_param_d name v; Ok [i] else Ok []) = Ok [] → c = false.
Proof. destruct c; [|done]. by destruct v. Qed.

(** X4. A record without a handle resolves to the empty key exactly when
    none of the five tests of the direct branch holds: the source network
    is absent, blank or the any-address network, and the destination
    network, the ports and the protocol are absent. *)
Theorem direct_key_empty_iff (mangle_table : list MangleRule) (filter_param : dict) :
  filter_param !! Tc.HANDLE = None →
  filter_key mangle_table filter_param = Ok ""
  ↔ no_key_field ip_version is_anywhere_network int_of_str filter_param.
Proof.
  intros Hh. split; [|by apply no_key_field_empty_key].
  unfold get_filter_key.
  destruct (key_items mangle_table filter_param) as [items|] eqn:Hitems; [|done].
  simpl. intros [= Hkey].
  destruct (key_item_list_fields _ _ _ _ _ _ _ Hitems) as (fields & -> & _).
  apply py_join_empty_inv in Hkey as ->. simpl in Hitems.
  revert Hitems. unfold key_item_list, direct_key_items.
  rewrite bool_decide_eq_false_2 by (rewrite Hh; by intros [? ?]).
  intros Hrun.
  repeat match type of Hrun with
  | mbind _ ?block = Ok _ =>
      let E := fresh "E" in
      destruct block eqn:E; simpl in Hrun; [|discriminate]
  end.
  injection Hrun as Happ.
  repeat match goal with
  | Hnil : _ ++ _ = [] |- _ => apply app_eq_nil in Hnil as [-> Hnil]
  end.
  subst.
  apply item_s_nil in E, E0, E3. apply item_d_nil in E1, E2.
  unfold no_key_field, absent_or_any. repeat split; try done.
  apply andb_false_iff in E as [?|?%negb_false_iff]; [by left|by right].
Qed.

Lemma item_s_total (c : bool) (name : string) (v : pyval) :
  (c = true → is_not_null_string v = true) →
  ∃ items, (if c then i ← format_param_s name v; Ok [i] else Ok []) = Ok items.
Proof.
  intros Hc. destruct c; [|by eexists].
  specialize (Hc eq_refl). destruct v; try done. by eexists.
Qed.

(** The item of a port is built unless the port is a text that converts to
    an integer. *)
Lemma item_d_total (name : string) (v : pyval) :
  (∃ items, (if Integer_is_type int_of_str v
             then i ← format_param_d name v; Ok [i] else Ok []) = Ok items)
  ↔ ∀ s, v = PyStr s → int_of_str s = None.
Proof.
  unfold Integer_is_type. case_bool_decide as Hconv.
  - destruct v as [|z|s]; simpl in *.
    + by destruct Hconv.
    + split; [done|by eexists].
    + split; [by intros [? ?]|]. intros Hs.
      rewrite (Hs s eq_refl) in Hconv. by destruct Hconv.
  - split; [|by eexists]. intros _ s ->. simpl in Hconv.
    by apply eq_None_not_Some.
Qed.

(** X5. A record without a handle is resolved without the mangle table, and
    its resolution fails only in one case: a port that is a text which
    converts to an integer, on which the format code [d] raises. *)
Theorem direct_resolution_fails_only_on_text_port (mangle_table : list MangleRule)
    (filter_param : dict) :
  filter_param !! Tc.HANDLE = None →
  (∀ table, filter_key table filter_param = filter_key mangle_table filter_param)
  ∧ ((∃ key, filter_key mangle_table filter_param = Ok key)
     ↔ ∀ name s, name ∈ [Tc.SRC_PORT; Tc.DST_PORT] →
                 py_get filter_param name = PyStr s → int_of_str s = None).
Proof.
  intros Hh. split.
  - intros table. unfold get_filter_key, key_item_list.
    by rewrite bool_decide_eq_false_2 by (rewrite Hh; by intros [? ?]).
  - unfold get_filter_key, key_item_list, direct_key_items.
    rewrite bool_decide_eq_false_2 by (rewrite Hh; by intros [? ?]).
    destruct (item_s_total
                (is_not_null_string (py_get filter_param Tc.SRC_NETWORK)
                 && negb (is_anywhere_network (py_get filter_param Tc.SRC_NETWORK)
                            ip_version))
                Tc.SRC_NETWORK (py_get filter_param Tc.SRC_NETWORK))
      as [i1 ->]; [by intros [? _]%andb_true_iff|].
    destruct (item_s_total (is_not_null_string (py_get filter_param Tc.DST_NETWORK))
                Tc.DST_NETWORK (py_get filter_param Tc.DST_NETWORK))
      as [i2 ->]; [done|].
    destruct (item_s_total (is_not_null_string (py_get filter_param Tc.PROTOCOL))
                Tc.PROTOCOL (py_get filter_param Tc.PROTOCOL))
      as [i5 ->]; [done|].
    pose proof (item_d_total Tc.SRC_PORT (py_get filter_param Tc.SRC_PORT)) as H3.
    pose proof (item_d_total Tc.DST_PORT (py_get filter_param Tc.DST_PORT)) as H4.
    simpl. split.
    + intros [key Hkey] name s Hname Hport.
      rewrite !elem_of_cons, elem_of_nil in Hname.
      destruct (if Integer_is_type int_of_str (py_get filter_param Tc.SRC_PORT)
                then _ else _) as [i3|] eqn:E3; [|done].
      simpl in Hkey.
      destruct (if Integer_is_type int_of_str (py_get filter_param Tc.DST_PORT)
                then _ else _) as [i4|] eqn:E4; [|done].
      destruct Hname as [->|[->|[]]].
      * apply (proj1 H3); [by eexists|done].
      * apply (proj1 H4); [by eexists|done].
    + intros Hports.
      destruct (proj2 H3) as [i3 ->].
      { intros s. apply Hports. apply elem_of_cons. by left. }
      simpl.
      destruct (proj2 H4) as [i4 ->].
      { intros s. apply Hports. apply elem_of_cons. right. apply elem_of_cons. by left. }
      simpl. by eexists.
Qed.

End KeyResolution.

(** ** Stripping and the two scans *)

Lemma dict_updates_lookup_is_Some (ds : list dict) (d : dict) (k : string) :
  d ∈ ds → is_Some (d !! k) → is_Some (dict_updates ds !! k).
Proof.
  intros Hin [v Hv]. induction ds as [|d' ds IH]; [by apply elem_of_nil in Hin|].
  rewrite dict_updates_cons.
  apply elem_of_cons in Hin as [<-|Hin].
  - destruct (dict_updates ds !! k) as [v'|] eqn:Hk.
    + exists v'. by apply lookup_union_Some_l.
    + exists v. rewrite lookup_union_r by done. done.
  - destruct (IH Hin) as [v' Hv']. exists v'. by apply lookup_union_Some_l.
Qed.

Section Scans.
Context {tc : Tc.Param}.

Lemma strip_qdisc_lookup (d : dict) (name : string) :
  strip_qdisc d !! name
  = if bool_decide (name = Tc.PARENT ∨ name = Tc.HANDLE) then None else d !! name.
Proof.
  unfold strip_qdisc. case_bool_decide as Hname.
  - destruct (decide (name = Tc.HANDLE)) as [->|Hh].
    + apply lookup_delete_eq.
    + rewrite lookup_delete_ne by done. destruct Hname as [->|?]; [|done].
      apply lookup_delete_eq.
  - rewrite !lookup_delete_ne by (intros <-; apply Hname; auto). done.
Qed.

(** X6. [__strip_qdisc_param] never raises, whether or not the record
    carries a parent or a handle: it returns a new object that holds every
    item of the record except those two, and leaves the record as it was.
    Stripping the copy again changes nothing more. *)
Theorem strip_qdisc_param_contract (s : state) (l : loc) (d : dict) :
  heap s !! l = Some d →
  ∃ s' d',
    strip_qdisc_param l s = (s', Ok (length (heap s)))
    ∧ heap s' = heap s ++ [d']
    ∧ heap s' !! l = Some d
    ∧ (∀ name, d' !! name
               = if bool_decide (name = Tc.PARENT ∨ name = Tc.HANDLE)
                 then None else d !! name)
    ∧ ∃ s'', strip_qdisc_param (length (heap s)) s' = (s'', Ok (length (heap s')))
             ∧ heap s'' = heap s' ++ [d'].
Proof.
  intros Hl. eexists _, (strip_qdisc d).
  split; [by apply strip_qdisc_param_run|]. simpl.
  split; [done|]. split; [by apply lookup_app_l_Some|].
  split; [apply strip_qdisc_lookup|].
  eexists. split.
  - apply strip_qdisc_param_run. simpl. by apply list_lookup_middle.
  - simpl. f_equal. f_equal. apply map_eq. intros name.
    rewrite !strip_qdisc_lookup. by case_bool_decide.
Qed.

Lemma class_params_missing_class_id (f c : dict) (cs : list dict) (acc : dict) :
  c ∈ cs → c !! Tc.CLASS_ID = None → PyNone ∈ join_ids f →
  class_params f cs acc = Raise (KeyError Tc.CLASS_ID).
Proof.
  intros Hin Hc Hf. revert acc.
  induction cs as [|c' cs IH]; intros acc; [by apply elem_of_nil in Hin|].
  simpl. apply elem_of_cons in Hin as [<-|Hin].
  - assert (Hget : py_get c Tc.CLASS_ID = PyNone) by (unfold py_get; by rewrite Hc).
    rewrite Hget, bool_decide_eq_false_2 by (by intros ?).
    by rewrite bool_decide_eq_false_2 by (rewrite Hc; by intros [? ?]).
  - case_bool_decide; [by apply IH|].
    case_bool_decide; [by apply IH|done].
Qed.

(** X7. The class id of a matching class record is deleted without a
    guard: when some class record carries no class id and the filter lacks
    its flow id or its class id, the absent id of the record equals the
    absent id of the filter, the record matches, and the scan of the class
    records ends in a [KeyError] on the class id. *)
Theorem class_record_without_class_id_raises (fl : loc) (f c : dict)
    (cls : list loc) (cds : list dict) (acc : dict) (s : state) :
  heap s !! fl = Some f →
  objs (heap s) cls cds →
  c ∈ cds → c !! Tc.CLASS_ID = None →
  py_get f Tc.FLOW_ID = PyNone ∨ py_get f Tc.CLASS_ID = PyNone →
  (class_loop fl cls acc s).2 = Raise (KeyError Tc.CLASS_ID).
Proof.
  intros Hfl Hobjs Hin Hc Hf.
  destruct (class_loop_run fl f cls cds s acc Hfl Hobjs) as [ext ->]. simpl.
  apply (class_params_missing_class_id f c); [done..|].
  unfold join_ids. destruct Hf as [->| ->]; [by left|right; by left].
Qed.

Lemma qdisc_params_app (f : dict) (qs1 qs2 : list dict) (acc : dict) :
  qdisc_params f (qs1 ++ qs2) acc = qdisc_params f qs2 (qdisc_params f qs1 acc).
Proof.
  revert acc. induction qs1 as [|q qs1 IH]; intros acc; simpl; [done|].
  case_bool_decide; apply IH.
Qed.

Lemma qdisc_params_keeps (f : dict) (qs : list dict) (acc : dict)
    (name : string) :
  Forall (λ q, py_get q Tc.PARENT ∈ join_ids f → q !! name = None) qs →
  qdisc_params f qs acc !! name = acc !! name.
Proof.
  intros Hall. revert acc.
  induction Hall as [|q qs Hq _ IH]; intros acc; simpl; [done|].
  case_bool_decide as Hm; [apply IH|].
  rewrite IH. specialize (Hq Hm).
  rewrite lookup_union_r; [done|].
  rewrite strip_qdisc_lookup. by case_bool_decide.
Qed.

(** X8. Among the qdisc records that match a filter, the one scanned last
    decides the value of a parameter: the accumulator of the qdisc scan
    holds, under a name other than parent and handle, the value of the
    last matching record that carries the name. *)
Theorem last_matching_qdisc_wins (fl : loc) (f q : dict) (qls : list loc)
    (pre post : list dict) (acc : dict) (name : string) (v : pyval) (s : state) :
  heap s !! fl = Some f →
  objs (heap s) qls (pre ++ q :: post) →
  py_get q Tc.PARENT ∈ join_ids f →
  q !! name = Some v → name ≠ Tc.PARENT → name ≠ Tc.HANDLE →
  Forall (λ q', py_get q' Tc.PARENT ∈ join_ids f → q' !! name = None) post →
  ∃ s' acc', qdisc_loop fl qls acc s = (s', Ok acc') ∧ acc' !! name = Some v.
Proof.
  intros Hfl Hobjs Hm Hq Hp Hh Hpost.
  destruct (qdisc_loop_run fl f qls _ s acc Hfl Hobjs) as [ext ->].
  eexists _, _. split; [done|].
  rewrite qdisc_params_app. simpl.
  rewrite bool_decide_eq_false_2 by (by intros ?).
  rewrite qdisc_params_keeps by done.
  apply lookup_union_Some_l. rewrite strip_qdisc_lookup.
  rewrite bool_decide_eq_false_2; [done|]. by intros [?|?].
Qed.

(** X9. A qdisc record without a parent matches every filter that lacks
    its flow id or its class id, because both absent values read as
    [None]: each of its parameters, the handle apart, then has a value in
    the accumulator of the qdisc scan. *)
Theorem parentless_qdisc_joins_filter_without_id (fl : loc) (f q : dict)
    (qls : list loc) (qds : list dict) (acc : dict) (name : string) (s : state) :
  heap s !! fl = Some f →
  objs (heap s) qls qds →
  q ∈ qds → q !! Tc.PARENT = None →
  py_get f Tc.FLOW_ID = PyNone ∨ py_get f Tc.CLASS_ID = PyNone →
  is_Some (q !! name) → name ≠ Tc.HANDLE →
  ∃ s' acc', qdisc_loop fl qls acc s = (s', Ok acc') ∧ is_Some (acc' !! name).
Proof.
  intros Hfl Hobjs Hin Hq Hf Hname Hh.
  destruct (qdisc_loop_run fl f qls qds s acc Hfl Hobjs) as [ext ->].
  eexists _, _. split; [done|].
  rewrite qdisc_params_spec.
  assert (Hpart : is_Some (spec_qdisc_part f qds !! name)).
  { unfold spec_qdisc_part.
    apply (dict_updates_lookup_is_Some _ (delete Tc.HANDLE (delete Tc.PARENT q))).
    - apply list_elem_of_fmap. exists q. split; [done|].
      apply list_elem_of_filter. split; [|done].
      assert (Hget : py_get q Tc.PARENT = PyNone) by (unfold py_get; by rewrite Hq).
      rewrite Hget. unfold join_ids.
      destruct Hf as [->| ->]; [by left|right; by left].
    - rewrite lookup_delete_ne by done.
      destruct (decide (Tc.PARENT = name)) as [<-|?].
      + rewrite Hq in Hname. by destruct Hname.
      + by rewrite lookup_delete_ne. }
  destruct Hpart as [v Hv]. exists v. by apply lookup_union_Some_l.
Qed.

End Scans.

(** ** The filter loop and the reconstruction of a direction *)

Section Directions.
Context {tc : Tc.Param}.

Variable ip_version : Z.
Variable is_anywhere_network : pyval → Z → bool.
Variable int_of_str : string → option Z.
Variable int_literal : string → option Z.
Variable mangle_table : list MangleRule.
Variable run_tc_show : Subcommand → pyval → result string.
Variable qdisc_records class_records filter_records
  : pyval → string → result (list dict).

Local Abbreviation filter_key :=
  (get_filter_key ip_version is_anywhere_network int_of_str int_literal mangle_table).
Local Abbreviation rules :=
  (shaping_rules ip_version is_anywhere_network int_of_str int_literal mangle_table).
Local Abbreviation resolve :=
  (keys_resolve ip_version is_anywhere_network int_of_str int_literal mangle_table).
Local Abbreviation run_filter_loop :=
  (filter_loop ip_version is_anywhere_network int_of_str int_literal mangle_table).
Local Abbreviation run_get_shaping_rule :=
  (get_shaping_rule ip_version is_anywhere_network int_of_str int_literal mangle_table
     run_tc_show qdisc_records class_records filter_records).
Local Abbreviation rule_of :=
  (shaping_rule_of ip_version is_anywhere_network int_of_str int_literal mangle_table
     run_tc_show qdisc_records class_records filter_records).
Local Abbreviation records_of :=
  (parsed_records run_tc_show qdisc_records class_records filter_records).

Lemma qdisc_loop_unmatched (fl : loc) (f : dict) (qls : list loc)
    (qds : list dict) (acc : dict) (s : state) :
  heap s !! fl = Some f →
  objs (heap s) qls qds →
  Forall (λ q, py_get q Tc.PARENT ∉ join_ids f) qds →
  qdisc_loop fl qls acc s = (s, Ok acc).
Proof.
  intros Hfl Hobjs Hall. revert qls Hobjs.
  induction Hall as [|q qds Hq _ IH]; intros qls Hobjs.
  - by apply Forall2_nil_inv_r in Hobjs as ->.
  - apply Forall2_cons_inv_r in Hobjs as (l & qls' & Hl & Hobjs & ->).
    simpl. unfold mbind at 1, M_bind at 1. rewrite (dict_get_run s l q) by done.
    unfold mbind at 1, M_bind at 1. rewrite (dict_get_run s fl f) by done.
    unfold mbind at 1, M_bind at 1. rewrite (dict_get_run s fl f) by done.
    fold (join_ids f). rewrite bool_decide_eq_true_2 by done. by apply IH.
Qed.

Lemma class_loop_unmatched (fl : loc) (f : dict) (cls : list loc)
    (cds : list dict) (acc : dict) (s : state) :
  heap s !! fl = Some f →
  objs (heap s) cls cds →
  Forall (λ c, py_get c Tc.CLASS_ID ∉ join_ids f) cds →
  class_loop fl cls acc s = (s, Ok acc).
Proof.
  intros Hfl Hobjs Hall. revert cls Hobjs.
  induction Hall as [|c cds Hc _ IH]; intros cls Hobjs.
  - by apply Forall2_nil_inv_r in Hobjs as ->.
  - apply Forall2_cons_inv_r in Hobjs as (l & cls' & Hl & Hobjs & ->).
    simpl. unfold mbind at 1, M_bind at 1. rewrite (dict_get_run s l c) by done.
    unfold mbind at 1, M_bind at 1. rewrite (dict_get_run s fl f) by done.
    unfold mbind at 1, M_bind at 1. rewrite (dict_get_run s fl f) by done.
    fold (join_ids f). rewrite bool_decide_eq_true_2 by done. by apply IH.
Qed.

(** X10. A filter record whose key resolves but whose flow id and class id
    match no qdisc parent and no class id is dropped: its iteration of the
    filter loop copies nothing and leaves the mapping and the store as they
    were. *)
Theorem filter_without_match_is_dropped (fl : loc) (f : dict) (key : string)
    (fls qls cls : list loc) (qds cds : list dict)
    (mapping : gmap string dict) (s : state) :
  heap s !! fl = Some f →
  objs (heap s) qls qds →
  objs (heap s) cls cds →
  filter_key f = Ok key →
  Forall (λ q, py_get q Tc.PARENT ∉ join_ids f) qds →
  Forall (λ c, py_get c Tc.CLASS_ID ∉ join_ids f) cds →
  run_filter_loop (fl :: fls) qls cls mapping s
  = run_filter_loop fls qls cls mapping s.
Proof.
  intros Hfl Hq Hc Hkey Hqs Hcs. simpl.
  unfold mbind at 1, M_bind at 1. rewrite (load_run s fl f Hfl).
  unfold mbind at 1, M_bind at 1. unfold lift at 1. rewrite Hkey.
  simpl. destruct (is_blank key); [done|].
  unfold mbind at 1, M_bind at 1.
  rewrite (qdisc_loop_unmatched fl f qls qds ∅ s) by done.
  unfold mbind at 1, M_bind at 1.
  rewrite (class_loop_unmatched fl f cls cds ∅ s) by done.
  by rewrite bool_decide_eq_true_2.
Qed.

Lemma rules_size (fs qs cs : list dict) (mapping mapping' : gmap string dict) :
  rules fs qs cs mapping = Ok mapping' →
  (size mapping' ≤ size mapping + length fs)%nat.
Proof.
  revert mapping. induction fs as [|f fs IH]; intros mapping; simpl.
  - intros [= <-]. simpl. lia.
  - destruct (filter_key f) as [key|]; simpl; [|done].
    assert (Hskip : rules fs qs cs mapping = Ok mapping' →
              (size mapping' ≤ size mapping + S (length fs))%nat).
    { intros Hrun%IH. lia. }
    destruct (is_blank key); [done|].
    destruct (merged_params f qs cs) as [rule|]; simpl; [|done].
    case_bool_decide; [done|].
    intros Hrun%IH.
    assert (size (<[key := rule]> mapping) ≤ S (size mapping))%nat; [|lia].
    rewrite map_size_insert. destruct (mapping !! key); simpl; lia.
Qed.

(** X11. Every entry of the mapping a direction returns stems from a filter
    record of its own parse: its key is the non-empty key of that record
    and its value is the non-empty merge of that record; there are at most
    as many entries as filter records. *)
Theorem entries_stem_from_filters (dev : pyval) (s s' : state)
    (mapping : gmap string dict) :
  run_get_shaping_rule dev s = (s', Ok mapping) →
  (∀ key rule,
     mapping !! key = Some rule →
     key ≠ "" ∧ rule ≠ ∅
     ∧ ∃ cs fs qs f,
         records_of dev = Ok (cs, fs, qs)
         ∧ f ∈ fs ∧ filter_key f = Ok key
         ∧ rule = spec_merged_params f qs cs)
  ∧ (∀ cs fs qs,
       records_of dev = Ok (cs, fs, qs) → (size mapping ≤ length fs)%nat).
Proof.
  intros Hrun.
  destruct (get_shaping_rule_run ip_version is_anywhere_network int_of_str int_literal
              mangle_table run_tc_show qdisc_records class_records
              filter_records dev s) as (s'' & Hs'' & _).
  rewrite Hrun in Hs''. injection Hs'' as _ Hmap. symmetry in Hmap.
  pose proof Hmap as Hinv.
  apply rule_of_ok_inv in Hinv as [->|(cs & fs & qs & Hrec & Hrules)].
  - split; [done|]. intros cs fs qs _. rewrite map_size_empty. lia.
  - split.
    + intros key rule Hlook.
      destruct (rules_lookup_inv _ _ _ _ _ _ _ _ _ _ _ _ Hrules Hlook)
        as [?|(f & Hin & Hkey & Hne & Hrule & Hrule_ne)]; [done|].
      split; [done|]. split; [done|]. exists cs, fs, qs, f.
      repeat split; try done. by apply merged_params_inv.
    + intros cs' fs' qs' Hrec'. rewrite Hrec in Hrec'. injection Hrec' as <- <- <-.
      apply rules_size in Hrules. rewrite map_size_empty in Hrules. lia.
Qed.

(** X12. An exception of one of the three queries or of a parser ends the
    reconstruction of the direction with that exception; when it is the
    class query that fails, which runs first, nothing has been inserted or
    allocated. *)
Theorem failed_query_aborts_direction (dev : pyval) (e : exn) (s : state) :
  is_null_string dev = false →
  (records_of dev = Raise e → (run_get_shaping_rule dev s).2 = Raise e)
  ∧ (run_tc_show CLASS dev = Raise e → run_get_shaping_rule dev s = (s, Raise e)).
Proof.
  intros Hdev. split.
  - intros Hrec.
    destruct (get_shaping_rule_run ip_version is_anywhere_network int_of_str int_literal
                mangle_table run_tc_show qdisc_records class_records
                filter_records dev s) as (s' & -> & _).
    simpl. unfold shaping_rule_of. by rewrite Hdev, Hrec.
  - intros Hshow. unfold get_shaping_rule. rewrite Hdev.
    unfold parse_tc_class.
    unfold mbind at 1, M_bind at 1. unfold mbind at 1, M_bind at 1.
    unfold lift at 1. by rewrite Hshow.
Qed.

(** X13. There is no partial result: when the key of a filter record does
    not resolve, the direction ends with the exception of that record, even
    though the records before it resolved and joined without an error. *)
Theorem unresolved_filter_aborts_direction (dev : pyval)
    (cs pre post qs : list dict) (f : dict) (e : exn) (s : state) :
  is_null_string dev = false →
  records_of dev = Ok (cs, pre ++ f :: post, qs) →
  resolve pre → carry_class_id cs →
  filter_key f = Raise e →
  (run_get_shaping_rule dev s).2 = Raise e.
Proof.
  intros Hdev Hrec Hres Hcarry Hkey.
  destruct (get_shaping_rule_run ip_version is_anywhere_network int_of_str int_literal
              mangle_table run_tc_show qdisc_records class_records
              filter_records dev s) as (s' & -> & _).
  simpl. unfold shaping_rule_of. rewrite Hdev, Hrec. simpl.
  rewrite rules_app.
  destruct (rules_ok ip_version is_anywhere_network int_of_str int_literal mangle_table
              pre qs cs ∅ Hres Hcarry) as [m1 ->].
  simpl. by rewrite Hkey.
Qed.

(** X14. The two tests for a missing IFB device differ. For a null device
    ([None], empty or blank) the incoming mapping is empty and no query is
    run. [get_incoming_tc_filter] tests the truth value instead: it returns
    the empty list without a query for [None] and the empty text, but for
    a blank name that is not empty it runs the filter query. *)
Theorem missing_ifb_device_tests (ifb_device : pyval) (s : state) :
  is_null_string ifb_device = true →
  run_get_shaping_rule ifb_device s = (s, Ok ∅)
  ∧ (py_truthy ifb_device = false →
     get_incoming_tc_filter run_tc_show filter_records ifb_device s = (s, Ok []))
  ∧ (py_truthy ifb_device = true →
     ∃ name, ifb_device = PyStr name ∧ name ≠ "" ∧ is_blank name = true
       ∧ get_incoming_tc_filter run_tc_show filter_records ifb_device s
         = parse_tc_filter run_tc_show filter_records ifb_device s).
Proof.
  intros Hnull. split; [|split].
  - unfold get_shaping_rule. by rewrite Hnull.
  - intros Hfalsy. unfold get_incoming_tc_filter. by rewrite Hfalsy.
  - intros Htruthy. destruct ifb_device as [|z|name]; try done.
    exists name. simpl in *. split; [done|].
    split; [by apply negb_true_iff, bool_decide_eq_false in Htruthy|].
    split; [done|].
    unfold get_incoming_tc_filter. simpl. by rewrite Htruthy.
Qed.

End Directions.

(** ** The logging switches *)

(** X15. After [set_logger(is_enable)] the logger is enabled exactly when
    [is_enable] holds, whatever its state was, and its level is untouched;
    the setting is forwarded to the two libraries only when it changes the
    state of the logger, so that a second call with the same argument does
    nothing. *)
Theorem set_logger_switches (is_enable : bool) (st : Logger.logging) :
  Logger.disabled (Logger.set_logger is_enable st) = negb is_enable
  ∧ Logger.level (Logger.set_logger is_enable st) = Logger.level st
  ∧ Logger.calls (Logger.set_logger is_enable st)
    = Logger.calls st
      ++ (if bool_decide (Logger.disabled st = is_enable)
          then [Logger.SetLogger Logger.simplesqlite is_enable;
                Logger.SetLogger Logger.subprocrunner is_enable]
          else [])
  ∧ Logger.set_logger is_enable (Logger.set_logger is_enable st)
    = Logger.set_logger is_enable st.
Proof.
  unfold Logger.set_logger.
  destruct is_enable, st as [[] lv cs]; simpl; by rewrite ?app_nil_r.
Qed.

Section LogLevelProperties.

Variable get_level_name : Z → option string.
Variable NOTSET : Z.

Local Abbreviation set_level := (Logger.set_log_level get_level_name NOTSET).
Local Abbreviation consistent := (Logger.consistent NOTSET).

(** X16. [set_log_level] raises [LookupError] for a level logbook does not
    know. For a known level it returns with the logger at that level; a
    call with the current level changes nothing, and a call that changes
    the level leaves the logger disabled exactly when the new level is
    NOTSET. A logger that is disabled exactly when its level is NOTSET
    stays so. *)
Theorem set_log_level_contract (log_level : Z) (st : Logger.logging) :
  match get_level_name log_level with
  | None => set_level log_level st = Logger.LookupError log_level
  | Some _ =>
      ∃ st', set_level log_level st = Logger.Done st'
        ∧ Logger.level st' = log_level
        ∧ (log_level = Logger.level st → st' = st)
        ∧ (log_level ≠ Logger.level st →
           Logger.disabled st' = bool_decide (log_level = NOTSET))
        ∧ (consistent st → consistent st')
  end.
Proof.
  unfold Logger.set_log_level.
  destruct (get_level_name log_level) as [name|]; [|done].
  case_bool_decide as Hsame.
  - exists st. repeat split; done.
  - eexists. split; [done|]. simpl. split; [done|]. split; [done|].
    assert (Hdis : Logger.disabled
                     (if bool_decide (log_level = NOTSET)
                      then Logger.set_logger false st
                      else Logger.set_logger true st)
                   = bool_decide (log_level = NOTSET)).
    { unfold Logger.set_logger.
      case_bool_decide; destruct st as [[] lv cs]; done. }
    split; [done|]. intros _. unfold Logger.consistent. simpl. done.
Qed.

(** X17. A call of [set_log_level] that changes the level forwards the
    level to the two libraries, after the switch of [set_logger] when the
    logger goes from disabled to enabled or back; a call with the current
    level forwards nothing. *)
Theorem set_log_level_forwards (log_level : Z) (st : Logger.logging) :
  is_Some (get_level_name log_level) →
  ∃ st', set_level log_level st = Logger.Done st'
    ∧ Logger.calls st'
      = Logger.calls st
        ++ (if bool_decide (log_level = Logger.level st) then []
            else
              (if bool_decide (Logger.disabled st
                               = negb (bool_decide (log_level = NOTSET)))
               then [Logger.SetLogger Logger.simplesqlite
                       (negb (bool_decide (log_level = NOTSET)));
                     Logger.SetLogger Logger.subprocrunner
                       (negb (bool_decide (log_level = NOTSET)))]
               else [])
              ++ [Logger.SetLogLevel Logger.simplesqlite log_level;
                  Logger.SetLogLevel Logger.subprocrunner log_level]).
Proof.
  intros [name Hname]. unfold Logger.set_log_level. rewrite Hname.
  case_bool_decide as Hsame.
  - exists st. by rewrite app_nil_r.
  - eexists. split; [done|]. simpl.
    unfold Logger.set_logger.
    case_bool_decide as Hnotset; destruct st as [[] lv cs]; simpl;
      by rewrite <- ?app_assoc.
Qed.

End LogLevelProperties.

(** ** The further properties on the sample configuration *)

Lemma handle_resolves_iff_rule_exists_witness :
  (∃ key, Sample.key_of [Sample.rule_c; Sample.rule_a] Sample.marked = Ok key)
  ↔ ∃ handle mangle,
      Integer_is_type Sample.text_int
        (py_get Sample.marked (Tc.HANDLE (Param := Sample.names))) = true
      ∧ py_int Sample.int_literal
          (py_get Sample.marked (Tc.HANDLE (Param := Sample.names))) = Ok handle
      ∧ mangle ∈ [Sample.rule_c; Sample.rule_a] ∧ mark_id mangle = handle.
Proof.
  apply (handle_resolves_iff_rule_exists (tc := Sample.names) 4 Sample.anywhere
           Sample.text_int Sample.int_literal [Sample.rule_c; Sample.rule_a] Sample.marked).
  by eexists.
Defined.

Lemma handle_ignores_direct_fields_witness :
  Sample.key_of [Sample.rule_a] Sample.marked
  = Sample.key_of [Sample.rule_a] Edge.marked_with_fields.
Proof.
  apply (handle_ignores_direct_fields (tc := Sample.names) 4 Sample.anywhere
           Sample.text_int Sample.int_literal [Sample.rule_a] Sample.marked Edge.marked_with_fields
           (PyInt 100)); reflexivity.
Defined.

Lemma handle_key_never_empty_witness :
  "dst-network=192.0.2.0/24, src-network=10.0.0.0/8, protocol=all" ≠ ""
  ∧ is_null_string
      (PyStr "dst-network=192.0.2.0/24, src-network=10.0.0.0/8, protocol=all") = false
  ∧ ∃ mangle, mangle ∈ [Sample.rule_c; Sample.rule_a; Sample.rule_b]
      ∧ Integer_is_type Sample.text_int
          (py_get Sample.marked (Tc.HANDLE (Param := Sample.names))) = true
      ∧ py_int Sample.int_literal
          (py_get Sample.marked (Tc.HANDLE (Param := Sample.names)))
        = Ok (mark_id mangle)
      ∧ "dst-network=192.0.2.0/24, src-network=10.0.0.0/8, protocol=all"
        = py_join ", " (mangle_key_items (tc := Sample.names) mangle).
Proof.
  apply (handle_key_never_empty (tc := Sample.names) 4 Sample.anywhere
           Sample.text_int Sample.int_literal [Sample.rule_c; Sample.rule_a; Sample.rule_b]
           Sample.marked).
  - by eexists.
  - vm_compute. reflexivity.
Defined.

Lemma direct_key_empty_iff_witness :
  Sample.key_of [] Sample.any_source = Ok ""
  ↔ no_key_field (tc := Sample.names) 4 Sample.anywhere Sample.text_int
      Sample.any_source.
Proof.
  apply (direct_key_empty_iff (tc := Sample.names) 4 Sample.anywhere
           Sample.text_int Sample.int_literal [] Sample.any_source).
  vm_compute. reflexivity.
Defined.

Lemma direct_resolution_fails_only_on_text_port_witness :
  (∀ table, Sample.key_of table Edge.text_port = Sample.key_of [] Edge.text_port)
  ∧ ((∃ key, Sample.key_of [] Edge.text_port = Ok key)
     ↔ ∀ name s,
         name ∈ [Tc.SRC_PORT (Param := Sample.names);
                 Tc.DST_PORT (Param := Sample.names)] →
         py_get Edge.text_port name = PyStr s → Sample.text_int s = None).
Proof.
  apply (direct_resolution_fails_only_on_text_port (tc := Sample.names) 4
           Sample.anywhere Sample.text_int Sample.int_literal [] Edge.text_port).
  vm_compute. reflexivity.
Defined.

(** A handle that passes the type test but is no literal for [int]: the
    conversion of line 82 raises, although a rule carries the mark 1. *)
Example float_handle_raises :
  get_filter_key (tc := Sample.names) 4 Sample.anywhere Edge.lenient_int
    Sample.int_literal [Edge.rule_one] Edge.float_handle
  = Raise (ValueError "invalid literal for int() with base 10").
Proof. vm_compute. reflexivity. Qed.

(** A destination port that is a text which converts to an integer. *)
Example text_port_raises :
  Sample.key_of [] Edge.text_port = Raise (ValueError "Unknown format code 'd'").
Proof. vm_compute. reflexivity. Qed.

Lemma strip_qdisc_param_contract_witness :
  ∃ s' d',
    strip_qdisc_param (tc := Sample.names) 0%nat
      {| con := []; heap := [Edge.rootless] |} = (s', Ok 1%nat)
    ∧ heap s' = [Edge.rootless] ++ [d']
    ∧ heap s' !! 0%nat = Some Edge.rootless
    ∧ (∀ name, d' !! name
               = if bool_decide (name = Tc.PARENT (Param := Sample.names)
                                 ∨ name = Tc.HANDLE (Param := Sample.names))
                 then None else Edge.rootless !! name)
    ∧ ∃ s'', strip_qdisc_param (tc := Sample.names) 1%nat s'
             = (s'', Ok (length (heap s')))
             ∧ heap s'' = heap s' ++ [d'].
Proof.
  apply (strip_qdisc_param_contract (tc := Sample.names)
           {| con := []; heap := [Edge.rootless] |} 0%nat Edge.rootless).
  reflexivity.
Defined.

Lemma class_record_without_class_id_raises_witness :
  (class_loop (tc := Sample.names) 0%nat [1%nat; 2%nat] ∅
     {| con := []; heap := [Sample.direct; Sample.htb; Edge.anonymous_class] |}).2
  = Raise (KeyError "classid").
Proof.
  apply (class_record_without_class_id_raises (tc := Sample.names) 0%nat
           Sample.direct Edge.anonymous_class [1%nat; 2%nat]
           [Sample.htb; Edge.anonymous_class] ∅
           {| con := []; heap := [Sample.direct; Sample.htb; Edge.anonymous_class] |}).
  - reflexivity.
  - repeat constructor.
  - apply elem_of_cons. right. apply elem_of_cons. by left.
  - vm_compute. reflexivity.
  - right. vm_compute. reflexivity.
Defined.

Lemma last_matching_qdisc_wins_witness :
  ∃ s' acc',
    qdisc_loop (tc := Sample.names) 0%nat [1%nat; 2%nat] ∅
      {| con := []; heap := [Sample.direct; Sample.netem; Edge.netem_slow] |}
    = (s', Ok acc')
    ∧ acc' !! "delay" = Some (PyStr "7ms").
Proof.
  apply (last_matching_qdisc_wins (tc := Sample.names) 0%nat Sample.direct
           Edge.netem_slow [1%nat; 2%nat] [Sample.netem] [] ∅ "delay" (PyStr "7ms")
           {| con := []; heap := [Sample.direct; Sample.netem; Edge.netem_slow] |}).
  - reflexivity.
  - repeat constructor.
  - apply elem_of_cons. left. vm_compute. reflexivity.
  - vm_compute. reflexivity.
  - discriminate.
  - discriminate.
  - constructor.
Defined.

Lemma parentless_qdisc_joins_filter_without_id_witness :
  ∃ s' acc',
    qdisc_loop (tc := Sample.names) 0%nat [1%nat; 2%nat] ∅
      {| con := []; heap := [Sample.direct; Sample.netem; Edge.rootless] |}
    = (s', Ok acc')
    ∧ is_Some (acc' !! "rate").
Proof.
  apply (parentless_qdisc_joins_filter_without_id (tc := Sample.names) 0%nat
           Sample.direct Edge.rootless [1%nat; 2%nat]
           [Sample.netem; Edge.rootless] ∅ "rate"
           {| con := []; heap := [Sample.direct; Sample.netem; Edge.rootless] |}).
  - reflexivity.
  - repeat constructor.
  - apply elem_of_cons. right. apply elem_of_cons. by left.
  - vm_compute. reflexivity.
  - right. vm_compute. reflexivity.
  - eexists. vm_compute. reflexivity.
  - discriminate.
Defined.

(** The mapping of a filter without a class id when a qdisc record without
    a parent is present: the parameters of that record are merged in. *)
Example rootless_qdisc_in_mapping :
  (Sample.reconstruct [] [Sample.netem; Edge.rootless] [] [Sample.direct]
     Sample.empty).2
  = Ok {[ "dst-network=192.0.2.0/24, protocol=ip" :=
            {[ "rate" := PyStr "1Mbit"; "delay" := PyStr "100ms";
               "limit" := PyStr "10" ]} ]}.
Proof. vm_compute. reflexivity. Qed.

Lemma filter_without_match_is_dropped_witness :
  filter_loop (tc := Sample.names) 4 Sample.anywhere Sample.text_int Sample.int_literal []
    (0%nat :: [1%nat]) [2%nat] [3%nat] ∅
    {| con := [];
       heap := [Sample.direct_again; Sample.direct; Sample.netem; Sample.htb] |}
  = filter_loop (tc := Sample.names) 4 Sample.anywhere Sample.text_int Sample.int_literal []
      [1%nat] [2%nat] [3%nat] ∅
      {| con := [];
         heap := [Sample.direct_again; Sample.direct; Sample.netem; Sample.htb] |}.
Proof.
  apply (filter_without_match_is_dropped (tc := Sample.names) 4 Sample.anywhere
           Sample.text_int Sample.int_literal [] 0%nat Sample.direct_again
           "dst-network=192.0.2.0/24, protocol=ip" [1%nat] [2%nat] [3%nat]
           [Sample.netem] [Sample.htb] ∅
           {| con := [];
              heap := [Sample.direct_again; Sample.direct; Sample.netem; Sample.htb] |}).
  - reflexivity.
  - repeat constructor.
  - repeat constructor.
  - vm_compute. reflexivity.
  - repeat constructor. refine (bool_decide_eq_true_1 _ _). vm_compute. reflexivity.
  - repeat constructor. refine (bool_decide_eq_true_1 _ _). vm_compute. reflexivity.
Defined.

Lemma entries_stem_from_filters_witness :
  (∀ key rule,
     ({[ "dst-network=192.0.2.0/24, protocol=ip" :=
           {[ "rate" := PyStr "1Mbit"; "delay" := PyStr "100ms";
              "limit" := PyStr "20" ]} ]} : gmap string dict) !! key = Some rule →
     key ≠ "" ∧ rule ≠ ∅
     ∧ ∃ cs fs qs f,
         parsed_records Sample.show (Sample.records [Sample.netem])
           (Sample.records [Sample.htb])
           (Sample.records [Sample.direct; Sample.any_source]) Sample.eth0
         = Ok (cs, fs, qs)
         ∧ f ∈ fs ∧ Sample.key_of [] f = Ok key
         ∧ rule = spec_merged_params (tc := Sample.names) f qs cs)
  ∧ (∀ cs fs qs,
       parsed_records Sample.show (Sample.records [Sample.netem])
         (Sample.records [Sample.htb])
         (Sample.records [Sample.direct; Sample.any_source]) Sample.eth0
       = Ok (cs, fs, qs) →
       (size ({[ "dst-network=192.0.2.0/24, protocol=ip" :=
                   {[ "rate" := PyStr "1Mbit"; "delay" := PyStr "100ms";
                      "limit" := PyStr "20" ]} ]} : gmap string dict)
        ≤ length fs)%nat).
Proof.
  apply (entries_stem_from_filters (tc := Sample.names) 4 Sample.anywhere
           Sample.text_int Sample.int_literal [] Sample.show (Sample.records [Sample.netem])
           (Sample.records [Sample.htb])
           (Sample.records [Sample.direct; Sample.any_source]) Sample.eth0
           Sample.empty
           (Sample.reconstruct [] [Sample.netem] [Sample.htb]
              [Sample.direct; Sample.any_source] Sample.empty).1).
  vm_compute. reflexivity.
Defined.

Lemma failed_query_aborts_direction_witness :
  (parsed_records Edge.show_without_class (Sample.records [Sample.netem])
     (Sample.records [Sample.htb]) (Sample.records [Sample.direct]) Sample.eth0
   = Raise (QueryError "Cannot find device") →
   (get_shaping_rule (tc := Sample.names) 4 Sample.anywhere Sample.text_int Sample.int_literal []
      Edge.show_without_class (Sample.records [Sample.netem])
      (Sample.records [Sample.htb]) (Sample.records [Sample.direct])
      Sample.eth0 Sample.empty).2
   = Raise (QueryError "Cannot find device"))
  ∧ (Edge.show_without_class CLASS Sample.eth0
     = Raise (QueryError "Cannot find device") →
     get_shaping_rule (tc := Sample.names) 4 Sample.anywhere Sample.text_int Sample.int_literal []
       Edge.show_without_class (Sample.records [Sample.netem])
       (Sample.records [Sample.htb]) (Sample.records [Sample.direct])
       Sample.eth0 Sample.empty
     = (Sample.empty, Raise (QueryError "Cannot find device"))).
Proof.
  apply (failed_query_aborts_direction (tc := Sample.names) 4 Sample.anywhere
           Sample.text_int Sample.int_literal [] Edge.show_without_class
           (Sample.records [Sample.netem]) (Sample.records [Sample.htb])
           (Sample.records [Sample.direct]) Sample.eth0
           (QueryError "Cannot find device") Sample.empty).
  reflexivity.
Defined.

Lemma unresolved_filter_aborts_direction_witness :
  (Sample.reconstruct [] [Sample.netem] [Sample.htb]
     [Sample.direct; Sample.marked; Sample.direct_other] Sample.empty).2
  = Raise (UnboundLocalError "mangle").
Proof.
  apply (unresolved_filter_aborts_direction (tc := Sample.names) 4 Sample.anywhere
           Sample.text_int Sample.int_literal [] Sample.show (Sample.records [Sample.netem])
           (Sample.records [Sample.htb])
           (Sample.records [Sample.direct; Sample.marked; Sample.direct_other])
           Sample.eth0 [Sample.htb] [Sample.direct] [Sample.direct_other]
           [Sample.netem] Sample.marked (UnboundLocalError "mangle") Sample.empty).
  - reflexivity.
  - reflexivity.
  - repeat constructor. eexists. vm_compute. reflexivity.
  - repeat constructor. eexists. vm_compute. reflexivity.
  - vm_compute. reflexivity.
Defined.

Lemma missing_ifb_device_tests_witness :
  get_shaping_rule (tc := Sample.names) 4 Sample.anywhere Sample.text_int Sample.int_literal []
    Sample.show (Sample.records [Sample.netem]) (Sample.records [Sample.htb])
    (Sample.records [Sample.direct]) (PyStr " ") Sample.empty
  = (Sample.empty, Ok ∅)
  ∧ (py_truthy (PyStr " ") = false →
     get_incoming_tc_filter Sample.show (Sample.records [Sample.direct])
       (PyStr " ") Sample.empty = (Sample.empty, Ok []))
  ∧ (py_truthy (PyStr " ") = true →
     ∃ name, PyStr " " = PyStr name ∧ name ≠ "" ∧ is_blank name = true
       ∧ get_incoming_tc_filter Sample.show (Sample.records [Sample.direct])
           (PyStr " ") Sample.empty
         = parse_tc_filter Sample.show (Sample.records [Sample.direct])
             (PyStr " ") Sample.empty).
Proof.
  apply (missing_ifb_device_tests (tc := Sample.names) 4 Sample.anywhere
           Sample.text_int Sample.int_literal [] Sample.show (Sample.records [Sample.netem])
           (Sample.records [Sample.htb]) (Sample.records [Sample.direct])
           (PyStr " ") Sample.empty).
  reflexivity.
Defined.

(** On a blank device name the filter query runs and its records are
    inserted, while the mapping of the same device is empty. *)
Example blank_ifb_device_is_queried :
  (get_incoming_tc_filter Sample.show (Sample.records [Sample.direct])
     (PyStr " ") Sample.empty)
  = ({| con := [(FILTER, PyStr " ", Sample.direct)]; heap := [Sample.direct] |},
     Ok [0%nat])
  ∧ get_incoming_tc_filter Sample.show (Sample.records [Sample.direct])
      PyNone Sample.empty = (Sample.empty, Ok []).
Proof. split; reflexivity. Qed.

Lemma set_log_level_forwards_witness :
  ∃ st', Logger.set_log_level Logger.logbook_level_name 0 11 (Logger.loaded 0)
         = Logger.Done st'
    ∧ Logger.calls st'
      = Logger.calls (Logger.loaded 0)
        ++ (if bool_decide (11 = Logger.level (Logger.loaded 0)) then []
            else
              (if bool_decide (Logger.disabled (Logger.loaded 0)
                               = negb (bool_decide (11 = 0)))
               then [Logger.SetLogger Logger.simplesqlite (negb (bool_decide (11 = 0)));
                     Logger.SetLogger Logger.subprocrunner (negb (bool_decide (11 = 0)))]
               else [])
              ++ [Logger.SetLogLevel Logger.simplesqlite 11;
                  Logger.SetLogLevel Logger.subprocrunner 11]).
Proof.
  apply (set_log_level_forwards Logger.logbook_level_name 0 11 (Logger.loaded 0)).
  by eexists.
Defined.

(** From the loaded logger: INFO enables it and forwards switch and level,
    INFO again does nothing, NOTSET disables it again, and an unknown
    level raises. *)
Example log_level_session :
  Logger.set_log_level Logger.logbook_level_name 0 11 (Logger.loaded 0)
  = Logger.Done
      {| Logger.disabled := false; Logger.level := 11;
         Logger.calls := [Logger.SetLogger Logger.simplesqlite true;
                          Logger.SetLogger Logger.subprocrunner true;
                          Logger.SetLogLevel Logger.simplesqlite 11;
                          Logger.SetLogLevel Logger.subprocrunner 11] |}
  ∧ Logger.set_log_level Logger.logbook_level_name 0 11
      {| Logger.disabled := false; Logger.level := 11; Logger.calls := [] |}
    = Logger.Done {| Logger.disabled := false; Logger.level := 11; Logger.calls := [] |}
  ∧ Logger.set_log_level Logger.logbook_level_name 0 0
      {| Logger.disabled := false; Logger.level := 11; Logger.calls := [] |}
    = Logger.Done
        {| Logger.disabled := true; Logger.level := 0;
           Logger.calls := [Logger.SetLogger Logger.simplesqlite false;
                            Logger.SetLogger Logger.subprocrunner false;
                            Logger.SetLogLevel Logger.simplesqlite 0;
                            Logger.SetLogLevel Logger.subprocrunner 0] |}
  ∧ Logger.set_log_level Logger.logbook_level_name 0 42 (Logger.loaded 0)
    = Logger.LookupError 42.
Proof. repeat split; reflexivity. Qed.
